(** * simfaas: the Fission emulation layer

    A shallow embedding of [fission.go] and [httputil.go]: the wildcard
    router [RegexpHandler], the custom-response dispatcher [CustomHandler]
    and the [Fission] facade with its HTTP handlers.

    Go strings and byte slices are sequences of bytes, modelled as [string];
    [int] values are in [Z]; a [*time.Duration] is an [option] of the
    nanosecond count; a Go result pair [(v, err)] is a [result].  The
    [Platform] (declared in a file of the package that is not part of this
    development) and the Go standard library are interfaces.  [Start] and
    [Close], which only pass the call on to the platform, and the log lines
    are left out. *)

From Stdlib Require Import ZArith String Ascii List Floats.
From stdpp Require Import base option list strings gmap.

Local Open Scope string_scope.
Local Open Scope Z_scope.

(* ================================================================== *)
(** * Part I: the embedding *)
(* ================================================================== *)

(** ** Errors and results *)

(** A Go [error].  [ErrFunctionNotFound] is the package-level sentinel the
    code compares by identity; every other error is known by its message. *)
Inductive error : Type :=
  | ErrFunctionNotFound
  | errors_New (msg : string).

(** A Go [(T, error)] return pair: [Ok v] is [(v, nil)], [Err e] is
    [(zero, e)]. *)
Inductive result (A : Type) : Type :=
  | Ok (v : A)
  | Err (e : error).
Arguments Ok {A} v.
Arguments Err {A} e.

(** ** The [strings] functions the code calls *)

Module strings.

(** [len(s)] *)
Definition len (s : string) : Z := Z.of_nat (String.length s).

(** [strings.Split(s, sep)] for a one-byte separator, the only way the
    code calls it: the substrings between the separators, never empty. *)
Fixpoint Split (s : string) (sep : ascii) : list string :=
  match s with
  | EmptyString => [EmptyString]
  | String c s' =>
      if Ascii.eqb c sep then EmptyString :: Split s' sep
      else match Split s' sep with
           | [] => [String c EmptyString]
           | x :: xs => String c x :: xs
           end
  end.

(** [strings.LastIndex(s, sep)] for a one-byte separator: the index of
    the last occurrence, or -1. *)
Fixpoint LastIndex (s : string) (sep : ascii) : Z :=
  match s with
  | EmptyString => -1
  | String c s' =>
      let i := LastIndex s' sep in
      if 0 <=? i then i + 1
      else if Ascii.eqb c sep then 0 else -1
  end.

(** [strings.Contains(s, sep)] for a one-byte separator. *)
Fixpoint Contains (s : string) (sep : ascii) : bool :=
  match s with
  | EmptyString => false
  | String c s' => Ascii.eqb c sep || Contains s' sep
  end.

(** The slice expression [s[lo:]]; Go panics unless [0 <= lo <= len(s)],
    which is [None] here. *)
Definition slice_from (s : string) (lo : Z) : option string :=
  if (0 <=? lo) && (lo <=? len s)
  then Some (String.substring (Z.to_nat lo) (String.length s - Z.to_nat lo) s)
  else None.

End strings.

(** ** net/http data *)

(** [http.Header] and [url.Values] are both [map[string][]string]. *)
Abbreviation Header := (gmap string (list string)).
Abbreviation Values := (gmap string (list string)).

(** [url.URL], the fields the code reads. *)
Record URL : Type := {
  Path : string;
  RawQuery : string;
  Host : string
}.

(** A request body: an [io.ReadCloser] that yields [body_data] and then
    either EOF or the read error [body_err]. *)
Record Body : Type := {
  body_data : string;
  body_err : option error
}.

(** [http.Request], the fields the code reads. *)
Record Request : Type := {
  req_URL : URL;
  req_Header : Header;
  req_Body : Body
}.

(** The state of an [http.ResponseWriter]: the status code once the header
    is written, and the body bytes written so far. *)
Record ResponseWriter : Type := {
  status : option Z;
  written : string
}.

Definition StatusOK : Z := 200.
Definition StatusBadRequest : Z := 400.
Definition StatusNotFound : Z := 404.
Definition StatusInternalServerError : Z := 500.

(** A response writer nothing has been written to. *)
Definition fresh_writer : ResponseWriter :=
  {| status := None; written := EmptyString |}.

(** [w.WriteHeader(code)]: only the first call sets the status. *)
Definition WriteHeader (w : ResponseWriter) (code : Z) : ResponseWriter :=
  match status w with
  | Some _ => w
  | None => {| status := Some code; written := written w |}
  end.

(** [w.Write(b)]: writes the header with 200 first when none was written. *)
Definition Write (w : ResponseWriter) (b : string) : ResponseWriter :=
  let w' := WriteHeader w StatusOK in
  {| status := status w'; written := written w' +:+ b |}.

(** The line feed [fmt.Fprintln] ends its output with. *)
Definition LF : string := String (ascii_of_nat 10) EmptyString.

(** [http.Error(w, msg, code)]: the status, then the message and a line
    feed as the body (the content-type headers it sets are left out). *)
Definition http_Error (w : ResponseWriter) (msg : string) (code : Z) : ResponseWriter :=
  Write (WriteHeader w code) (msg +:+ LF).

(** [ioutil.ReadAll(r.Body)] *)
Definition ioutil_ReadAll (b : Body) : result string :=
  match body_err b with
  | Some e => Err e
  | None => Ok (body_data b)
  end.

(** [textproto.CanonicalMIMEHeaderKey]: a key made of token bytes gets an
    upper-case letter first and after each hyphen and lower-case letters
    elsewhere; any other key is returned as it is. *)
Module textproto.

Definition is_lower (c : ascii) : bool :=
  let n := nat_of_ascii c in (97 <=? n)%nat && (n <=? 122)%nat.
Definition is_upper (c : ascii) : bool :=
  let n := nat_of_ascii c in (65 <=? n)%nat && (n <=? 90)%nat.
Definition is_digit (c : ascii) : bool :=
  let n := nat_of_ascii c in (48 <=? n)%nat && (n <=? 57)%nat.

Definition validHeaderFieldByte (c : ascii) : bool :=
  is_lower c || is_upper c || is_digit c
  || existsb (Ascii.eqb c) (list_ascii_of_string "!#$%&'*+-.^_`|~").

Fixpoint canonical (upper : bool) (s : string) : string :=
  match s with
  | EmptyString => EmptyString
  | String c s' =>
      let c' :=
        if upper && is_lower c then ascii_of_nat (nat_of_ascii c - 32)
        else if negb upper && is_upper c then ascii_of_nat (nat_of_ascii c + 32)
        else c in
      String c' (canonical (Ascii.eqb c' "-"%char) s')
  end.

Definition CanonicalMIMEHeaderKey (s : string) : string :=
  if forallb validHeaderFieldByte (list_ascii_of_string s)
  then canonical true s else s.

End textproto.

(** [h.Get(key)] on an [http.Header]: the first value stored under the
    canonical form of the key, or the empty string. *)
Definition Header_Get (h : Header) (key : string) : string :=
  match h !! textproto.CanonicalMIMEHeaderKey key with
  | Some (v :: _) => v
  | _ => EmptyString
  end.

(** [v.Get(key)] on a [url.Values]: the first value stored under the key,
    or the empty string. *)
Definition Values_Get (v : Values) (key : string) : string :=
  match v !! key with
  | Some (x :: _) => x
  | _ => EmptyString
  end.

(** ** time and float64 *)

(** [time.Duration]: an [int64] count of nanoseconds. *)
Definition Duration : Type := Z.
Definition Second : Duration := 1000000000.

Definition int64_min : Z := - 2 ^ 63.
Definition int64_max : Z := 2 ^ 63 - 1.

(** The conversion [int64(x)] of a [float64]: the fraction is dropped
    (rounding toward zero).  For NaN, the infinities and values outside
    [int64] the Go specification leaves the result to the implementation;
    this is the amd64 one. *)
Definition float64_to_int64 (x : float) : Z :=
  match Prim2SF x with
  | S754_zero _ => 0
  | S754_finite s m e =>
      let mag := if 0 <=? e then Z.pos m * 2 ^ e else Z.pos m / 2 ^ (- e) in
      let v := if s then - mag else mag in
      if (int64_min <=? v) && (v <=? int64_max) then v else int64_min
  | _ => int64_min
  end.

(** [float64(d)] of an integer that a [float64] holds exactly. *)
Definition float64_of_int (d : Z) : float := PrimFloat.of_uint63 (Uint63.of_Z d).

(** ** The interfaces the code is written against *)

(** [ExecutionReport]: the [Response] field the code assigns, and the
    fields it never looks at. *)
Record ExecutionReport (R : Type) : Type := {
  Response : string;
  report_fields : R
}.
Arguments Response {R} _.
Arguments report_fields {R} _.

(** [report.Response = s] *)
Definition set_Response {R : Type} (report : ExecutionReport R) (s : string) : ExecutionReport R :=
  {| Response := s; report_fields := report_fields report |}.

(** Modelled from the spec: the [Platform] type and its methods [Get],
    [Define], [Run] and [deploy], the types [Function], [FunctionConfig]
    and [ExecutionReport] and the text of [ErrFunctionNotFound] are declared
    in a file of the package that is not available.  The spec gives the
    contract only: register a function, look one up, trigger a deploy, run an
    invocation and obtain a report.  The state of the platform is passed
    explicitly; a lookup leaves it as it is. *)
Class PlatformAPI : Type := {
  Platform : Type;
  Function : Type;
  FunctionConfig : Type;
  ReportFields : Type;
  (** [fn.name] *)
  Function_name : Function -> string;
  (** [p.Get(fnName)]: [(fn, true)] is [Some fn], [(nil, false)] is [None] *)
  Platform_Get : Platform -> string -> option Function;
  (** [p.Define(fnName, cfg)] *)
  Platform_Define : Platform -> string -> FunctionConfig -> Platform;
  (** [p.Run(fnName, runtime)] *)
  Platform_Run : Platform -> string -> option Duration ->
                 result (ExecutionReport ReportFields) * Platform;
  (** [p.deploy(fn)] *)
  Platform_deploy : Platform -> Function -> option error * Platform;
  (** [ErrFunctionNotFound.Error()] *)
  ErrFunctionNotFound_text : string;
  (** [json.Marshal(report)] *)
  json_Marshal : ExecutionReport ReportFields -> result string
}.

(** [ObjectMeta] *)
Record ObjectMeta : Type := {
  Name : string
}.

(** The functions of the Go standard library that are used as they are. *)
Class GoLib : Type := {
  (** [*regexp.Regexp] *)
  Regexp : Type;
  regexp_MustCompile : string -> Regexp;
  (** [re.MatchString(s)] *)
  regexp_MatchString : Regexp -> string -> bool;
  (** [url.Parse(s)] *)
  url_Parse : string -> result URL;
  (** [u.Query()] *)
  URL_Query : URL -> Values;
  (** [strconv.ParseFloat(s, 64)] *)
  strconv_ParseFloat : string -> result float;
  (** [json.Unmarshal(bs, meta)] into an empty [ObjectMeta] *)
  json_Unmarshal : string -> result ObjectMeta
}.

(** ** State passing *)

(** A computation over a state [S] that returns an [A]. *)
Definition M (S A : Type) : Type := S -> A * S.

Global Instance M_ret {S : Type} : MRet (M S) :=
  fun A (a : A) (s : S) => (a, s).

Global Instance M_bind {S : Type} : MBind (M S) :=
  fun A B (k : A -> M S B) (m : M S A) (s : S) =>
    let (a, s') := m s in k a s'.

(** [http.Handler]: [ServeHTTP(w, r)] acting on the response writer and on
    the state [S] of the program. *)
Definition http_Handler (S : Type) : Type :=
  ResponseWriter -> Request -> M S ResponseWriter.

(** [http.NotFound(w, r)] *)
Definition http_NotFound (w : ResponseWriter) (r : Request) : ResponseWriter :=
  http_Error w "404 page not found" StatusNotFound.

(** ** httputil.go: RegexpHandler *)

Section RegexpHandler.
Context `{GoLib} {S : Type}.

Record route : Type := {
  pattern : Regexp;
  handler : http_Handler S
}.

Record RegexpHandler : Type := {
  routes : list route
}.

(** [h.Handler(pattern, handler)] *)
Definition Handler (h : RegexpHandler) (p : Regexp) (hd : http_Handler S) : RegexpHandler :=
  {| routes := routes h ++ [{| pattern := p; handler := hd |}] |}.

(** [h.HandleFunc(pattern, handler)] *)
Definition HandleFunc (h : RegexpHandler) (p : Regexp) (hd : http_Handler S) : RegexpHandler :=
  {| routes := routes h ++ [{| pattern := p; handler := hd |}] |}.

(** The loop of [ServeHTTP] with [n = i + 1]: the index and the route of
    the first match among [routes[n-1]], ..., [routes[0]], in that order.
    An index outside the slice (never reached from [len(h.routes)]) ends
    the scan. *)
Fixpoint scan (rs : list route) (path : string) (n : nat) : option (nat * route) :=
  match n with
  | O => None
  | Datatypes.S i =>
      match rs !! i with
      | Some rt =>
          if regexp_MatchString (pattern rt) path then Some (i, rt)
          else scan rs path i
      | None => None
      end
  end.

(** [strings.Split(r.URL.Path, "?")[0]] *)
Definition route_path (r : Request) : string :=
  default EmptyString (strings.Split (Path (req_URL r)) "?"%char !! 0%nat).

(** [h.ServeHTTP(w, r)] *)
Definition ServeHTTP (h : RegexpHandler) : http_Handler S :=
  fun w r =>
    let path := route_path r in
    match scan (routes h) path (length (routes h)) with
    | Some (_, rt) => handler rt w r
    | None => mret (http_NotFound w r)
    end.

End RegexpHandler.

Arguments route {_} S.
Arguments RegexpHandler {_} S.

(** ** httputil.go: CustomHandler *)

Definition CUSTOM_FN_HEADER : string := "X-CustomFn".

(** [CustomFn] *)
Definition CustomFn_t : Type := string -> result string.

Record CustomHandler : Type := {
  GetFn : string -> result string;
  Handlers : gmap string CustomFn_t
}.

(** [c.ExecFn(fnName, b)] *)
Definition ExecFn (c : CustomHandler) (fnName : string) (b : string) : result string :=
  match GetFn c fnName with
  | Err err => Err err
  | Ok customHandler =>
      match Handlers c !! customHandler with
      | None => Err (errors_New "Parsed handler does not exist")
      | Some fn => fn b
      end
  end.

(** ** fission.go *)

(** [getFunctionNameFromUrl(url)]: [url.Path[strings.LastIndex(url.Path, "/")+1:]] *)
Definition getFunctionNameFromUrl_checked (url : URL) : option string :=
  strings.slice_from (Path url) (strings.LastIndex (Path url) "/"%char + 1).

(** The lower bound [LastIndex + 1] of that slice is always within the
    string, so the slice is total. *)
Definition getFunctionNameFromUrl (url : URL) : string :=
  default EmptyString (getFunctionNameFromUrl_checked url).

(** [useCustomFn(h)] *)
Definition useCustomFn (h : Header) : bool :=
  negb (String.eqb (Header_Get h CUSTOM_FN_HEADER) EmptyString).

Section Fission.
Context `{PlatformAPI} `{GoLib}.

(** [err.Error()] *)
Definition Error (e : error) : string :=
  match e with
  | ErrFunctionNotFound => ErrFunctionNotFound_text
  | errors_New msg => msg
  end.

(** What the code asks of its collaborators, in the order it asks. *)
Inductive Call : Type :=
  | Get_call (fnName : string)
  | FnFactory_call (name : string)
  | Define_call (fnName : string) (cfg : FunctionConfig)
  | Run_call (fnName : string) (runtime : option Duration)
  | go_call (fn : Function)
  | deploy_call (fn : Function).

(** The state of the program: the shared [Platform], the calls made so
    far (oldest first) and the goroutines started by [go] that have not
    run yet, each the closure [func() { _ = f.Platform.deploy(fn) }] with
    its captured [fn]. *)
Record World : Type := {
  platform : Platform;
  calls : list Call;
  goroutines : list Function
}.

Definition record (c : Call) (w : World) : World :=
  {| platform := platform w; calls := calls w ++ [c]; goroutines := goroutines w |}.

Definition with_platform (p : Platform) (w : World) : World :=
  {| platform := p; calls := calls w; goroutines := goroutines w |}.

(** [f.Platform.Get(fnName)] *)
Definition Get (fnName : string) : M World (option Function) :=
  fun w => (Platform_Get (platform w) fnName, record (Get_call fnName) w).

(** [f.Platform.Define(fnName, cfg)] *)
Definition Define (fnName : string) (cfg : FunctionConfig) : M World unit :=
  fun w => (tt, with_platform (Platform_Define (platform w) fnName cfg)
                  (record (Define_call fnName cfg) w)).

(** [f.Platform.Run(fnName, runtime)] *)
Definition PlatformRun (fnName : string) (runtime : option Duration)
  : M World (result (ExecutionReport ReportFields)) :=
  fun w => let (res, p) := Platform_Run (platform w) fnName runtime in
           (res, with_platform p (record (Run_call fnName runtime) w)).

(** [go func() { _ = f.Platform.deploy(fn) }()]: the statement starts a
    goroutine and goes on; it runs nothing of the closure itself. *)
Definition go_deploy (fn : Function) : M World unit :=
  fun w => (tt, {| platform := platform w;
                  calls := calls w ++ [go_call fn];
                  goroutines := goroutines w ++ [fn] |}).

(** The closure of a started goroutine running: [_ = f.Platform.deploy(fn)],
    the error dropped. *)
Definition deploy_body (fn : Function) (w : World) : World :=
  let (_, p) := Platform_deploy (platform w) fn in
  with_platform p (record (deploy_call fn) w).

(** The scheduler runs any goroutine that was started, at any time between
    two operations of the program. *)
Inductive sched (w : World) : World -> Prop :=
  | sched_run (i : nat) (fn : Function) :
      goroutines w !! i = Some fn ->
      sched w (deploy_body fn {| platform := platform w; calls := calls w;
                                  goroutines := delete i (goroutines w) |}).

(** [Fission].  The [Platform] field is a pointer to the shared platform,
    which is the [platform] of the [World]. *)
Record Fission : Type := {
  FnFactory : string -> FunctionConfig;
  CreateUndefinedFunctions : bool;
  CustomFn : CustomHandler
}.

(** [f.FnFactory(name)] *)
Definition callFnFactory (f : Fission) (name : string) : M World FunctionConfig :=
  fun w => (FnFactory f name, record (FnFactory_call name) w).

(** [f.createIfUndefined(fnName)].  The log line is not modelled. *)
Definition createIfUndefined (f : Fission) (fnName : string) : M World unit :=
  if CreateUndefinedFunctions f then
    fn ← Get fnName;
    match fn with
    | None =>
        fnCfg ← callFnFactory f fnName;
        Define fnName fnCfg
    | Some _ => mret tt
    end
  else mret tt.

(** [f.GetServiceForFunction(fnName)] *)
Definition GetServiceForFunction (f : Fission) (fnName : string) : M World (result string) :=
  createIfUndefined f fnName;;
  fn ← Get fnName;
  match fn with
  | None => mret (Err ErrFunctionNotFound)
  | Some fn => mret (Ok (Function_name fn))
  end.

(** [svc2fn(svc)] *)
Definition svc2fn (svc : string) : string :=
  match url_Parse svc with
  | Err _ => svc
  | Ok svcURL => Host svcURL
  end.

(** [f.TapService(svcURL)]; a [nil] error is [None]. *)
Definition TapService (f : Fission) (svcURL : string) : M World (option error) :=
  if strings.len svcURL =? 0 then
    mret (Some (errors_New "no url provided to tap"))
  else
    let fnName := svc2fn svcURL in
    createIfUndefined f fnName;;
    fn ← Get fnName;
    match fn with
    | None => mret (Some ErrFunctionNotFound)
    | Some fn =>
        go_deploy fn;;
        mret None
    end.

(** [f.Run(r, runtime)] *)
Definition Run (f : Fission) (r : Request) (runtime : option Duration)
  : M World (result (ExecutionReport ReportFields)) :=
  let fnName := getFunctionNameFromUrl (req_URL r) in
  createIfUndefined f fnName;;
  res ← PlatformRun fnName runtime;
  match res with
  | Err err => mret (Err err)
  | Ok report =>
      if useCustomFn (req_Header r) then
        match ioutil_ReadAll (req_Body r) with
        | Err err => mret (Err err)
        | Ok body =>
            match ExecFn (CustomFn f) fnName body with
            | Err err => mret (Err err)
            | Ok res => mret (Ok (set_Response report res))
            end
        end
      else mret (Ok report)
  end.

(** [f.HandleGetServiceForFunction(w, r)] *)
Definition HandleGetServiceForFunction (f : Fission) : http_Handler World :=
  fun w r =>
    match ioutil_ReadAll (req_Body r) with
    | Err _ => mret (http_Error w "failed to read function metadata" 400)
    | Ok bs =>
        match json_Unmarshal bs with
        | Err _ => mret (http_Error w "failed to parse function metadata" 400)
        | Ok meta =>
            res ← GetServiceForFunction f (Name meta);
            match res with
            | Err err => mret (http_Error w (Error err) 404)
            | Ok svc => mret (Write (WriteHeader w StatusOK) svc)
            end
        end
    end.

(** [f.HandleTapService(w, r)].  The log lines are not modelled. *)
Definition HandleTapService (f : Fission) : http_Handler World :=
  fun w r =>
    match ioutil_ReadAll (req_Body r) with
    | Err _ => mret (http_Error w "failed to parse service to tap" 400)
    | Ok bs =>
        let svcURL := bs in
        err ← TapService f svcURL;
        match err with
        | Some _ => mret (http_Error w "failed to parse service to tap" 400)
        | None => mret (WriteHeader w StatusOK)
        end
    end.

(** [f.HandleFunctionsGet(w, r)] *)
Definition HandleFunctionsGet (f : Fission) : http_Handler World :=
  fun w r => mret (Write (WriteHeader w StatusOK) "{}").

(** The first part of [HandleFunctionRun]: [seconds] is the zero value
    unless the [runtime] query parameter is there and not empty. *)
Definition parse_seconds (r : Request) : result float :=
  let queryRuntime := Values_Get (URL_Query (req_URL r)) "runtime" in
  if 0 <? strings.len queryRuntime then strconv_ParseFloat queryRuntime
  else Ok 0%float.

(** [time.Duration(seconds * float64(time.Second))] *)
Definition seconds_to_Duration (seconds : float) : Duration :=
  float64_to_int64 (PrimFloat.mul seconds (float64_of_int Second)).

(** [f.HandleFunctionRun(w, r)] *)
Definition HandleFunctionRun (f : Fission) : http_Handler World :=
  fun w r =>
    match parse_seconds r with
    | Err err => mret (http_Error w (Error err) StatusBadRequest)
    | Ok seconds =>
        let runtime := seconds_to_Duration seconds in
        res ← Run f r (Some runtime);
        match res with
        | Err err => mret (http_Error w (Error err) StatusBadRequest)
        | Ok report =>
            match json_Marshal report with
            | Err err => mret (http_Error w (Error err) StatusInternalServerError)
            | Ok result => mret (Write (WriteHeader w StatusOK) result)
            end
        end
    end.

(** [f.Serve()] *)
Definition Serve (f : Fission) : RegexpHandler World :=
  let handler := {| routes := [] |} in
  let handler := HandleFunc handler (regexp_MustCompile "/v2/functions/.*") (HandleFunctionsGet f) in
  let handler := HandleFunc handler (regexp_MustCompile "/v2/tapService") (HandleTapService f) in
  let handler := HandleFunc handler (regexp_MustCompile "/v2/getServiceForFunction") (HandleGetServiceForFunction f) in
  let handler := HandleFunc handler (regexp_MustCompile "/fission-function/.*") (HandleFunctionRun f) in
  handler.

(** Modelled from the spec: [Platform.Run] is not available.  The spec has
    unknown functions "fail downstream lookups with FunctionNotFound" and has
    the run operation propagate "any error from the Platform": a run of a
    name the platform does not know fails with [ErrFunctionNotFound]. *)
Definition Run_rejects_unknown : Prop :=
  forall (p : Platform) (fnName : string) (runtime : option Duration),
    Platform_Get p fnName = None ->
    (Platform_Run p fnName runtime).1 = Err ErrFunctionNotFound.

(** Modelled from the spec: [Platform.Define] is not available.  The spec
    has it "register a function" that a later lookup finds. *)
Definition Define_registers : Prop :=
  forall (p : Platform) (fnName : string) (cfg : FunctionConfig),
    is_Some (Platform_Get (Platform_Define p fnName cfg) fnName).

End Fission.

(** ** An instance to run the code on

    A platform that keeps the configuration of each defined function and the
    names it was asked to deploy, and fragments of the library functions that
    agree with the Go ones on the inputs named at each. *)

Module Demo.

(** Patterns made of literal bytes, [.] (any byte but a line feed) and a
    postfix [*], which is what the patterns of [Serve] use. *)
Inductive atom : Type :=
  | Lit (c : ascii)
  | AnyChar.

Definition atom_matches (a : atom) (c : ascii) : bool :=
  match a with
  | Lit d => Ascii.eqb c d
  | AnyChar => negb (Ascii.eqb c (ascii_of_nat 10))
  end.

Fixpoint compile (s : string) : list (atom * bool) :=
  match s with
  | EmptyString => []
  | String c s' =>
      let a := if Ascii.eqb c "."%char then AnyChar else Lit c in
      match s' with
      | String "*"%char s'' => (a, true) :: compile s''
      | _ => (a, false) :: compile s'
      end
  end.

(** Does the pattern match a prefix of the string? *)
Fixpoint match_here (p : list (atom * bool)) : string -> bool :=
  match p with
  | [] => fun _ => true
  | (a, false) :: p' => fun s =>
      match s with
      | String c s' => atom_matches a c && match_here p' s'
      | EmptyString => false
      end
  | (a, true) :: p' =>
      fix star (s : string) : bool :=
        match_here p' s ||
        match s with
        | String c s' => atom_matches a c && star s'
        | EmptyString => false
        end
  end.

(** [MatchString]: does the pattern match anywhere in the string? *)
Fixpoint MatchString (p : list (atom * bool)) (s : string) : bool :=
  match_here p s ||
  match s with
  | String _ s' => MatchString p s'
  | EmptyString => false
  end.

Definition has_control_byte (s : string) : bool :=
  existsb (fun c => (nat_of_ascii c <? 32)%nat || (nat_of_ascii c =? 127)%nat)
          (list_ascii_of_string s).

(** The text before the first occurrence of [sep] and the text from it on
    (or the whole text and nothing). *)
Fixpoint break_at (sep : ascii) (s : string) : string * string :=
  match s with
  | EmptyString => (EmptyString, EmptyString)
  | String c s' =>
      if Ascii.eqb c sep then (EmptyString, s)
      else let (a, b) := break_at sep s' in (String c a, b)
  end.

(** The text after a leading [scheme://], when there is one. *)
Fixpoint after_scheme (s : string) : option string :=
  match s with
  | String ":"%char (String "/"%char (String "/"%char rest)) => Some rest
  | String c s' =>
      if textproto.is_lower c || textproto.is_upper c then after_scheme s' else None
  | EmptyString => None
  end.

(** [url.Parse] on strings [scheme://host/path] and on plain paths, without
    user, port, query, fragment or escapes; control bytes and a leading
    colon are rejected as in Go. *)
Definition Parse (s : string) : result URL :=
  if has_control_byte s then Err (errors_New "net/url: invalid control character in URL")
  else match s with
       | String ":"%char _ => Err (errors_New "missing protocol scheme")
       | _ =>
           match after_scheme s with
           | Some rest =>
               let (host, path) := break_at "/"%char rest in
               Ok {| Path := path; RawQuery := EmptyString; Host := host |}
           | None => Ok {| Path := s; RawQuery := EmptyString; Host := EmptyString |}
           end
       end.

(** [u.Query()] on a raw query of [key=value] pairs joined by [&], without
    escapes. *)
Definition Query (u : URL) : Values :=
  fold_left
    (fun (m : Values) (kv : string) =>
       let (k, v) := break_at "="%char kv in
       let v := match v with String _ v' => v' | EmptyString => EmptyString end in
       <[k := (default [] (m !! k) ++ [v])%list]> m)
    (filter (fun kv => kv <> EmptyString) (strings.Split (RawQuery u) "&"%char))
    ∅.

(** The digits of a decimal numeral: the number they spell and their count. *)
Fixpoint digits (s : string) (acc : Z) (n : nat) : option (Z * nat) :=
  match s with
  | EmptyString => Some (acc, n)
  | String c s' =>
      if textproto.is_digit c
      then digits s' (10 * acc + Z.of_nat (nat_of_ascii c - 48)) (Datatypes.S n)
      else None
  end.

(** A double quote. *)
Definition quote : string := String (ascii_of_nat 34) EmptyString.

(** [strconv.ParseFloat(s, 64)] on plain decimals [digits] or
    [digits.digits] of at most 15 digits, where the quotient of the two
    exact integers is the correctly rounded value; anything else is a syntax
    error here. *)
Definition ParseFloat (s : string) : result float :=
  let bad := Err (errors_New ("strconv.ParseFloat: parsing " +:+ quote +:+ s +:+ quote
                              +:+ ": invalid syntax")) in
  let (ip, fp) := break_at "."%char s in
  let fp := match fp with String _ fp' => fp' | EmptyString => EmptyString end in
  match digits ip 0 0, digits fp 0 0 with
  | Some (i, ni), Some (f, nf) =>
      if ((0 <? ni + nf) && (ni + nf <=? 15))%nat
      then Ok (PrimFloat.div (float64_of_int (i * 10 ^ Z.of_nat nf + f))
                             (float64_of_int (10 ^ Z.of_nat nf)))
      else bad
  | _, _ => bad
  end.

(** [p] removed from the front of [s], when [s] starts with it. *)
Fixpoint strip_prefix (p s : string) : option string :=
  match p, s with
  | EmptyString, _ => Some s
  | String a p', String b s' => if Ascii.eqb a b then strip_prefix p' s' else None
  | _, _ => None
  end.

(** [json.Unmarshal] into an [ObjectMeta] on the empty object, on an object
    with the one member [name] whose value has no quote or escape, and on an
    input that ends early; any other input is rejected here, with the same
    error. *)
Definition Unmarshal (bs : string) : result ObjectMeta :=
  let bad := Err (errors_New "unexpected end of JSON input") in
  if String.eqb bs "{}" then Ok {| Name := EmptyString |}
  else match strip_prefix ("{" +:+ quote +:+ "name" +:+ quote +:+ ":" +:+ quote) bs with
       | Some rest =>
           let (name, tl) := break_at (ascii_of_nat 34) rest in
           if String.eqb tl (quote +:+ "}") && negb (strings.Contains name "\"%char)
           then Ok {| Name := name |} else bad
       | None => bad
       end.

Definition lib : GoLib := {|
  Regexp := list (atom * bool);
  regexp_MustCompile := compile;
  regexp_MatchString := MatchString;
  url_Parse := Parse;
  URL_Query := Query;
  strconv_ParseFloat := ParseFloat;
  json_Unmarshal := Unmarshal
|}.

(** A function of the demo platform: its name and configured run time. *)
Record function : Type := {
  name : string;
  config : Duration
}.

(** The demo platform: the defined functions and the names deployed so far. *)
Record state : Type := {
  fns : gmap string Duration;
  deployed : list string
}.

Definition platform_api : PlatformAPI := {|
  Platform := state;
  Function := function;
  FunctionConfig := Duration;
  ReportFields := Duration;
  Function_name := name;
  Platform_Get := fun p n => (fun c => {| name := n; config := c |}) <$> fns p !! n;
  Platform_Define := fun p n c => {| fns := <[n := c]> (fns p); deployed := deployed p |};
  Platform_Run := fun p n rt =>
    match fns p !! n with
    | None => (Err ErrFunctionNotFound, p)
    | Some c => (Ok {| Response := "done"; report_fields := default c rt |}, p)
    end;
  Platform_deploy := fun p fn =>
    (None, {| fns := fns p; deployed := deployed p ++ [name fn] |});
  ErrFunctionNotFound_text := "function does not exist";
  json_Marshal := fun rep =>
    Ok ("{" +:+ quote +:+ "Response" +:+ quote +:+ ":" +:+ quote +:+ Response rep +:+ quote +:+ "}")
|}.

#[local] Existing Instance platform_api.
#[local] Existing Instance lib.

(** The factory of the demo: every function gets two seconds. *)
Definition factory (fnName : string) : Duration := 2 * Second.

(** The dispatcher of the demo: the key of a function is its name after
    [handler-], but [nokey] has none; one generator echoes the payload and
    one fails. *)
Definition custom : CustomHandler := {|
  GetFn := fun fnName =>
    if String.eqb fnName "nokey" then Err (errors_New "no handler key")
    else Ok ("handler-" +:+ fnName);
  Handlers :=
    {[ "handler-myfn" := ((fun b => Ok ("echo:" +:+ b)) : CustomFn_t);
       "handler-failing" := ((fun _ => Err (errors_New "generator failed")) : CustomFn_t) ]}
|}.

Definition fission (auto : bool) : Fission := {|
  FnFactory := factory;
  CreateUndefinedFunctions := auto;
  CustomFn := custom
|}.

Definition no_functions : state := {| fns := ∅; deployed := [] |}.

Definition with_myfn : state := {| fns := {[ "myfn" := 3 * Second ]}; deployed := [] |}.

(** A world in which nothing was called or started yet. *)
Definition world (p : state) : World :=
  {| platform := p; calls := []; goroutines := [] |}.

(** A request whose body reads without error. *)
Definition request (path rawQuery : string) (header : Header) (body : string) : Request := {|
  req_URL := {| Path := path; RawQuery := rawQuery; Host := EmptyString |};
  req_Header := header;
  req_Body := {| body_data := body; body_err := None |}
|}.

(** The marker header as a Go server stores it, under its canonical key. *)
Definition marker : Header := {[ "X-Customfn" := ["1"] ]}.

End Demo.

(** ** Proof automation *)

(** Puts both sides of an equation between worlds or call lists in the
    same form. *)
Ltac world_eq :=
  unfold record, with_platform;
  cbn [platform calls goroutines fst snd];
  rewrite <- ?app_assoc; cbn [app];
  try reflexivity.

(* ================================================================== *)
(** * Part II: properties *)
(* ================================================================== *)

(** ** Strings *)

Section StringFacts.
Import strings.

Lemma Split_not_nil (s : string) (sep : ascii) : Split s sep <> [].
Proof.
  destruct s as [|c s]; simpl; [discriminate|].
  destruct (Ascii.eqb c sep); [discriminate|].
  destruct (Split s sep); discriminate.
Qed.

Lemma LastIndex_bounds (s : string) (sep : ascii) :
  -1 <= LastIndex s sep < len s.
Proof.
  unfold len. induction s as [|c s IH]; simpl String.length; simpl LastIndex; [lia|].
  destruct (Z.leb_spec 0 (LastIndex s sep)); [lia|].
  destruct (Ascii.eqb c sep); lia.
Qed.

Lemma LastIndex_Contains (s : string) (sep : ascii) :
  LastIndex s sep < 0 <-> Contains s sep = false.
Proof.
  induction s as [|c s IH]; simpl; [split; [reflexivity | lia]|].
  pose proof (LastIndex_bounds s sep) as Hb.
  destruct (Z.leb_spec 0 (LastIndex s sep)) as [Hi|Hi].
  - split; [lia|]. intros Hc. apply orb_false_iff in Hc as [_ Hc].
    apply IH in Hc. lia.
  - apply IH in Hi. rewrite Hi, orb_false_r.
    destruct (Ascii.eqb c sep); split; (reflexivity || lia || discriminate).
Qed.

Lemma substring_all (s : string) : String.substring 0 (String.length s) s = s.
Proof. induction s as [|c s IH]; simpl; [reflexivity | now rewrite IH]. Qed.

Lemma slice_from_0 (s : string) : slice_from s 0 = Some s.
Proof.
  unfold slice_from, len. simpl Z.to_nat. rewrite Nat.sub_0_r, substring_all.
  destruct (Z.leb_spec 0 (Z.of_nat (String.length s))); [reflexivity | lia].
Qed.

Lemma slice_from_shift (c : ascii) (s : string) (n : Z) :
  0 <= n -> slice_from (String c s) (n + 1) = slice_from s n.
Proof.
  intros Hn. unfold slice_from, len. simpl String.length.
  replace (Z.to_nat (n + 1)) with (Datatypes.S (Z.to_nat n)) by lia.
  rewrite Nat2Z.inj_succ.
  destruct (Z.leb_spec 0 n); [|lia].
  destruct (Z.leb_spec 0 (n + 1)); [|lia].
  destruct (Z.leb_spec n (Z.of_nat (String.length s)));
    destruct (Z.leb_spec (n + 1) (Z.succ (Z.of_nat (String.length s)))); try lia;
    reflexivity.
Qed.

Lemma Split_no_sep (s : string) (sep : ascii) :
  LastIndex s sep < 0 -> Split s sep = [s].
Proof.
  induction s as [|c s IH]; simpl; [reflexivity|].
  pose proof (LastIndex_bounds s sep) as Hb.
  destruct (Z.leb_spec 0 (LastIndex s sep)) as [Hi|Hi]; [lia|].
  destruct (Ascii.eqb c sep); [lia|].
  intros _. now rewrite IH.
Qed.

Lemma Split_single (s : string) (sep : ascii) (x : string) :
  Split s sep = [x] -> LastIndex s sep < 0.
Proof.
  revert x. induction s as [|c s IH]; intros x E; simpl in *; [lia|].
  destruct (Ascii.eqb c sep).
  - pose proof (Split_not_nil s sep). congruence.
  - pose proof (Split_not_nil s sep) as Hne.
    destruct (Split s sep) as [|y [|z ys]]; [congruence| |discriminate].
    specialize (IH y eq_refl).
    destruct (Z.leb_spec 0 (LastIndex s sep)); lia.
Qed.

(** The slice the code takes is the last of the pieces [Split] gives. *)
Lemma last_Split_slice (s : string) (sep : ascii) :
  last (Split s sep) = slice_from s (LastIndex s sep + 1).
Proof.
  induction s as [|c s IH]; [reflexivity|].
  pose proof (LastIndex_bounds s sep) as Hb.
  pose proof (Split_not_nil s sep) as Hne.
  pose proof (Split_single s sep) as Hsingle.
  simpl Split. simpl LastIndex.
  destruct (Z.leb_spec 0 (LastIndex s sep)) as [Hi|Hi].
  - rewrite slice_from_shift by lia. rewrite <- IH.
    destruct (Ascii.eqb c sep); destruct (Split s sep) as [|x [|y xs]];
      try congruence; try reflexivity.
    specialize (Hsingle x eq_refl). lia.
  - rewrite (Split_no_sep s sep) by lia.
    destruct (Ascii.eqb c sep).
    + rewrite (slice_from_shift c s 0) by lia. now rewrite slice_from_0.
    + replace (-1 + 1) with 0 by lia. now rewrite slice_from_0.
Qed.

Lemma slice_LastIndex_Some (s : string) (sep : ascii) :
  exists seg, slice_from s (LastIndex s sep + 1) = Some seg.
Proof.
  pose proof (LastIndex_bounds s sep) as Hb. unfold slice_from.
  destruct (Z.leb_spec 0 (LastIndex s sep + 1)); [|lia].
  destruct (Z.leb_spec (LastIndex s sep + 1) (len s)); [|lia].
  eexists; reflexivity.
Qed.

Lemma Contains_app (a b : string) (sep : ascii) :
  Contains (a +:+ b) sep = Contains a sep || Contains b sep.
Proof.
  induction a as [|c a IH]; simpl; [reflexivity|]. now rewrite IH, orb_assoc.
Qed.

(** After the last separator comes a piece without one. *)
Lemma slice_after_last (a b : string) (sep : ascii) :
  Contains b sep = false ->
  slice_from (a +:+ String sep b) (LastIndex (a +:+ String sep b) sep + 1) = Some b.
Proof.
  intros Hb. induction a as [|c a IH].
  all: [> change (EmptyString +:+ String sep b) with (String sep b)
        | change (String c a +:+ String sep b) with (String c (a +:+ String sep b)) ].
  all: cbn [LastIndex].
  - apply LastIndex_Contains in Hb.
    destruct (Z.leb_spec 0 (LastIndex b sep)); [lia|].
    rewrite Ascii.eqb_refl. rewrite (slice_from_shift sep b 0) by lia.
    apply slice_from_0.
  - assert (Hi : 0 <= LastIndex (a +:+ String sep b) sep).
    { destruct (Z.leb_spec 0 (LastIndex (a +:+ String sep b) sep)) as [|Hn]; [assumption|].
      apply LastIndex_Contains in Hn. rewrite Contains_app in Hn. simpl in Hn.
      rewrite Ascii.eqb_refl in Hn. simpl in Hn. rewrite orb_true_r in Hn. discriminate. }
    destruct (Z.leb_spec 0 (LastIndex (a +:+ String sep b) sep)); [|lia].
    rewrite slice_from_shift by lia. exact IH.
Qed.

Lemma slice_no_sep (s : string) (sep : ascii) :
  Contains s sep = false -> slice_from s (LastIndex s sep + 1) = Some s.
Proof.
  intros Hc. apply LastIndex_Contains in Hc.
  pose proof (LastIndex_bounds s sep).
  replace (LastIndex s sep + 1) with 0 by lia. apply slice_from_0.
Qed.

(** The first piece [Split] gives has no separator and is the string up to
    its first separator, or the whole string when it has none. *)
Lemma Split_head (s : string) (sep : ascii) :
  exists (x : string) (xs : list string),
    Split s sep = x :: xs
    /\ Contains x sep = false
    /\ ((xs = [] /\ s = x) \/ exists rest, s = x +:+ String sep rest).
Proof.
  induction s as [|c s IH]; simpl.
  - exists EmptyString, []. repeat split. left. split; reflexivity.
  - destruct (Ascii.eqb c sep) eqn:E.
    + apply Ascii.eqb_eq in E. subst c.
      exists EmptyString, (Split s sep). repeat split. right. now exists s.
    + destruct IH as (x & xs & Hs & Hc & Hor). rewrite Hs.
      exists (String c x), xs. split; [reflexivity|]. split.
      * simpl. now rewrite E, Hc.
      * destruct Hor as [[-> ->]|[rest ->]].
        -- left. split; reflexivity.
        -- right. now exists rest.
Qed.

End StringFacts.

(** ** The router *)

Section RouterFacts.
Context `{GoLib} {S : Type}.
Implicit Types (rs : list (route S)) (rt : route S) (h : RegexpHandler S).

(** Both registration methods append, so registration order is list order. *)
Lemma HandleFunc_appends h (p : Regexp) (hd : http_Handler S) :
  routes (HandleFunc h p hd) = (routes h ++ [{| pattern := p; handler := hd |}])%list
  /\ routes (Handler h p hd) = routes (HandleFunc h p hd).
Proof. split; reflexivity. Qed.

(** What the loop found matches, and nothing between it and the start of
    the scan does. *)
Lemma scan_Some rs (path : string) (n i : nat) rt :
  scan rs path n = Some (i, rt) ->
  (i < n)%nat /\ rs !! i = Some rt
  /\ regexp_MatchString (pattern rt) path = true
  /\ forall j rt', (i < j < n)%nat -> rs !! j = Some rt' ->
       regexp_MatchString (pattern rt') path = false.
Proof.
  induction n as [|n IH]; simpl; [discriminate|].
  destruct (rs !! n) as [r|] eqn:En; [|discriminate].
  destruct (regexp_MatchString (pattern r) path) eqn:Em.
  - intros [= <- <-]. repeat split; auto with lia.
  - intros Hs. destruct (IH Hs) as (Hlt & Hi & Hm & Hnone).
    repeat split; auto with lia.
    intros j rt' Hj Hrt'. destruct (decide (j = n)) as [->|Hne].
    + congruence.
    + apply (Hnone j); auto with lia.
Qed.

(** The loop finds nothing only when nothing it looks at matches. *)
Lemma scan_None rs (path : string) (n : nat) :
  (n <= length rs)%nat -> scan rs path n = None ->
  forall j rt', (j < n)%nat -> rs !! j = Some rt' ->
    regexp_MatchString (pattern rt') path = false.
Proof.
  induction n as [|n IH]; simpl; intros Hn Hs j rt' Hj Hrt'; [lia|].
  destruct (rs !! n) as [r|] eqn:En.
  - destruct (regexp_MatchString (pattern r) path) eqn:Em; [discriminate|].
    destruct (decide (j = n)) as [->|Hne]; [congruence|].
    apply (IH ltac:(lia) Hs j); auto with lia.
  - apply lookup_ge_None in En. lia.
Qed.

(** The loop starting at the end finds the last route that matches. *)
Lemma scan_last_match rs (path : string) (k : nat) rt :
  rs !! k = Some rt ->
  regexp_MatchString (pattern rt) path = true ->
  (forall j rt', (k < j)%nat -> rs !! j = Some rt' ->
     regexp_MatchString (pattern rt') path = false) ->
  scan rs path (length rs) = Some (k, rt).
Proof.
  intros Hk Hm Hlast.
  pose proof (lookup_lt_Some _ _ _ Hk) as Hlt.
  destruct (scan rs path (length rs)) as [[i r]|] eqn:Es.
  - destruct (scan_Some _ _ _ _ _ Es) as (Hi & Hri & Hmi & Hnone).
    destruct (Nat.lt_trichotomy i k) as [Hik|[->|Hki]].
    + rewrite (Hnone k rt) in Hm by auto with lia. discriminate.
    + congruence.
    + rewrite (Hlast i r) in Hmi by auto. discriminate.
  - rewrite (scan_None _ _ _ (Nat.le_refl _) Es k rt) in Hm by auto.
    discriminate.
Qed.

(** The path the router matches is the request path up to its first [?]. *)
Lemma route_path_cut (r : Request) :
  strings.Contains (route_path r) "?"%char = false
  /\ (Path (req_URL r) = route_path r
      \/ exists rest, Path (req_URL r) = route_path r +:+ String "?"%char rest).
Proof.
  unfold route_path.
  destruct (Split_head (Path (req_URL r)) "?"%char) as (x & xs & -> & Hc & Hor).
  cbn. split; [exact Hc|].
  destruct Hor as [[_ ->]|[rest ->]]; [now left | right; now exists rest].
Qed.

(** Every dispatch is one of two: the handler of the last registered
    binding whose pattern matches the cut path is invoked, or no binding
    matches and the answer is the standard not-found response. *)
Lemma ServeHTTP_cases h (w : ResponseWriter) (r : Request) :
  (exists k rt,
      routes h !! k = Some rt
      /\ regexp_MatchString (pattern rt) (route_path r) = true
      /\ (forall k' rt', (k < k')%nat -> routes h !! k' = Some rt' ->
            regexp_MatchString (pattern rt') (route_path r) = false)
      /\ scan (routes h) (route_path r) (length (routes h)) = Some (k, rt)
      /\ ServeHTTP h w r = handler rt w r)
  \/ ((forall k rt, routes h !! k = Some rt ->
         regexp_MatchString (pattern rt) (route_path r) = false)
      /\ scan (routes h) (route_path r) (length (routes h)) = None
      /\ ServeHTTP h w r = mret (http_NotFound w r)).
Proof.
  unfold ServeHTTP. cbv zeta.
  destruct (scan (routes h) (route_path r) (length (routes h))) as [[k rt]|] eqn:Es.
  - left. destruct (scan_Some _ _ _ _ _ Es) as (Hk & Hrk & Hmk & Hnone).
    exists k, rt. repeat split; try assumption.
    intros k' rt' Hk' Hrt'. apply (Hnone k'); [|assumption].
    pose proof (lookup_lt_Some _ _ _ Hrt'). lia.
  - right. repeat split.
    intros k rt Hrk. apply (scan_None _ _ _ (Nat.le_refl _) Es k rt); [|assumption].
    exact (lookup_lt_Some _ _ _ Hrk).
Qed.

(** The last matching binding is one binding. *)
Lemma last_match_unique rs (path : string) (k1 k2 : nat) rt1 rt2 :
  rs !! k1 = Some rt1 -> regexp_MatchString (pattern rt1) path = true ->
  (forall k' rt', (k1 < k')%nat -> rs !! k' = Some rt' ->
     regexp_MatchString (pattern rt') path = false) ->
  rs !! k2 = Some rt2 -> regexp_MatchString (pattern rt2) path = true ->
  (forall k' rt', (k2 < k')%nat -> rs !! k' = Some rt' ->
     regexp_MatchString (pattern rt') path = false) ->
  k1 = k2 /\ rt1 = rt2.
Proof.
  intros H1 M1 L1 H2 M2 L2.
  assert (k1 = k2) as ->.
  { destruct (Nat.lt_trichotomy k1 k2) as [Hlt|[Heq|Hgt]]; [|assumption|].
    - rewrite (L1 k2 rt2 Hlt H2) in M2. discriminate.
    - rewrite (L2 k1 rt1 Hgt H1) in M1. discriminate. }
  split; [reflexivity | congruence].
Qed.

(** C1 (as amended): with the request path cut at its first [?], for every
    router and every request the router invokes exactly the handler of the
    last registered binding whose pattern matches, be it the only match or
    one of several, or gives the standard not-found response when no binding
    matches.  So when two bindings match, the one registered at [i] before
    the one at [j], the binding served is at an index [k >= j], never the
    one at [i], and it is the one at [j] when no binding after it matches. *)
Theorem ServeHTTP_most_recent_match_wins h (w : ResponseWriter) (r : Request) :
  ((exists k rt,
       routes h !! k = Some rt
       /\ regexp_MatchString (pattern rt) (route_path r) = true
       /\ (forall k' rt', (k < k')%nat -> routes h !! k' = Some rt' ->
             regexp_MatchString (pattern rt') (route_path r) = false)
       /\ ServeHTTP h w r = handler rt w r)
   \/ ((forall k rt, routes h !! k = Some rt ->
          regexp_MatchString (pattern rt) (route_path r) = false)
       /\ ServeHTTP h w r = mret (http_NotFound w r)))
  /\ (forall (k : nat) (rt : route S),
        routes h !! k = Some rt ->
        regexp_MatchString (pattern rt) (route_path r) = true ->
        (forall k' rt', (k < k')%nat -> routes h !! k' = Some rt' ->
           regexp_MatchString (pattern rt') (route_path r) = false) ->
        scan (routes h) (route_path r) (length (routes h)) = Some (k, rt)
        /\ ServeHTTP h w r = handler rt w r)
  /\ (forall (i j : nat) (rt1 rt2 : route S),
        (i < j)%nat ->
        routes h !! i = Some rt1 ->
        routes h !! j = Some rt2 ->
        regexp_MatchString (pattern rt1) (route_path r) = true ->
        regexp_MatchString (pattern rt2) (route_path r) = true ->
        exists k rt,
          (j <= k)%nat /\ k <> i
          /\ routes h !! k = Some rt
          /\ regexp_MatchString (pattern rt) (route_path r) = true
          /\ (forall k' rt', (k < k')%nat -> routes h !! k' = Some rt' ->
                regexp_MatchString (pattern rt') (route_path r) = false)
          /\ scan (routes h) (route_path r) (length (routes h)) = Some (k, rt)
          /\ ServeHTTP h w r = handler rt w r
          /\ ((forall k' rt', (j < k')%nat -> routes h !! k' = Some rt' ->
                 regexp_MatchString (pattern rt') (route_path r) = false) ->
              k = j /\ ServeHTTP h w r = handler rt2 w r))
  /\ ((forall k rt, routes h !! k = Some rt ->
         regexp_MatchString (pattern rt) (route_path r) = false) ->
      ServeHTTP h w r = mret (http_NotFound w r)).
Proof.
  split; [|split; [|split]].
  - destruct (ServeHTTP_cases h w r) as [(k & rt & Hk & Hm & Hl & _ & Hs)|(Hn & _ & Hs)].
    + left. exists k, rt. repeat split; assumption.
    + right. split; assumption.
  - intros k rt Hk Hm Hlast.
    assert (Es := scan_last_match _ _ _ _ Hk Hm Hlast).
    split; [exact Es|]. unfold ServeHTTP. cbv zeta. now rewrite Es.
  - intros i j rt1 rt2 Hij Hi Hj Hm1 Hm2.
    destruct (ServeHTTP_cases h w r) as [(k & rt & Hk & Hm & Hl & Es & Hs)|(Hn & _ & _)].
    + assert (Hjk : (j <= k)%nat).
      { destruct (Nat.le_gt_cases j k) as [|Hlt]; [assumption|].
        rewrite (Hl j rt2 Hlt Hj) in Hm2. discriminate. }
      exists k, rt.
      split; [exact Hjk|]. split; [lia|]. split; [exact Hk|]. split; [exact Hm|].
      split; [exact Hl|]. split; [exact Es|]. split; [exact Hs|].
      intros Hlast.
      destruct (last_match_unique _ _ _ _ _ _ Hk Hm Hl Hj Hm2 Hlast) as [-> ->].
      split; [reflexivity | exact Hs].
    + rewrite (Hn j rt2 Hj) in Hm2. discriminate.
  - intros Hnone.
    destruct (ServeHTTP_cases h w r) as [(k & rt & Hk & Hm & _)|(_ & _ & Hs)];
      [|exact Hs].
    rewrite (Hnone k rt Hk) in Hm. discriminate.
Qed.

End RouterFacts.

(** ** The facade *)

Section FissionFacts.
Context `{PlatformAPI} `{GoLib}.
Local Open Scope list_scope.
Implicit Types (f : Fission) (w : World) (fnName : string).

(** *** Identity of a function *)

Lemma getFunctionNameFromUrl_in_range (url : URL) :
  getFunctionNameFromUrl_checked url = Some (getFunctionNameFromUrl url).
Proof.
  unfold getFunctionNameFromUrl, getFunctionNameFromUrl_checked.
  destruct (slice_LastIndex_Some (Path url) "/"%char) as [seg ->]. reflexivity.
Qed.

Lemma getFunctionNameFromUrl_last_segment (url : URL) :
  last (strings.Split (Path url) "/"%char) = Some (getFunctionNameFromUrl url).
Proof.
  rewrite last_Split_slice. apply getFunctionNameFromUrl_in_range.
Qed.

Lemma getFunctionNameFromUrl_after_slash (a b q host : string) :
  strings.Contains b "/"%char = false ->
  getFunctionNameFromUrl {| Path := a +:+ String "/"%char b; RawQuery := q; Host := host |} = b.
Proof.
  intros Hb. unfold getFunctionNameFromUrl, getFunctionNameFromUrl_checked.
  cbn [Path]. now rewrite slice_after_last.
Qed.

Lemma getFunctionNameFromUrl_no_slash (url : URL) :
  strings.Contains (Path url) "/"%char = false ->
  getFunctionNameFromUrl url = Path url.
Proof.
  intros Hb. unfold getFunctionNameFromUrl, getFunctionNameFromUrl_checked.
  now rewrite slice_no_sep.
Qed.

Lemma getFunctionNameFromUrl_has_no_slash (url : URL) :
  strings.Contains (getFunctionNameFromUrl url) "/"%char = false.
Proof.
  unfold getFunctionNameFromUrl, getFunctionNameFromUrl_checked.
  generalize (Path url) as s. intros s.
  induction s as [|c s IH]; [reflexivity|].
  pose proof (LastIndex_bounds s "/"%char) as Hb.
  cbn [strings.LastIndex].
  destruct (Z.leb_spec 0 (strings.LastIndex s "/"%char)) as [Hi|Hi].
  - rewrite slice_from_shift by lia. exact IH.
  - assert (Hs : strings.Contains s "/"%char = false) by (apply LastIndex_Contains; lia).
    rewrite slice_no_sep in IH by assumption.
    destruct (Ascii.eqb c "/"%char) eqn:Ec.
    + rewrite (slice_from_shift c s 0) by lia. now rewrite slice_from_0.
    + replace (-1 + 1) with 0 by lia. rewrite slice_from_0.
      change (strings.Contains (String c s) "/"%char = false).
      cbn [strings.Contains]. now rewrite Ec, Hs.
Qed.

(** C6: the identity of an invocation is the last of the pieces of the path
    between slashes, which has no slash and is what follows the last slash
    of the path; the identity of a tap is the host of the parsed service
    URL, and the service URL itself when it does not parse. *)
Theorem function_identity (url : URL) (svc : string) :
  last (strings.Split (Path url) "/"%char) = Some (getFunctionNameFromUrl url)
  /\ strings.Contains (getFunctionNameFromUrl url) "/"%char = false
  /\ (forall a b, Path url = a +:+ String "/"%char b ->
        strings.Contains b "/"%char = false -> getFunctionNameFromUrl url = b)
  /\ svc2fn svc = match url_Parse svc with
                  | Ok svcURL => Host svcURL
                  | Err _ => svc
                  end
  /\ (forall e, url_Parse svc = Err e -> svc2fn svc = svc).
Proof.
  split; [apply getFunctionNameFromUrl_last_segment|].
  split; [apply getFunctionNameFromUrl_has_no_slash|].
  split.
  - intros a b Hp Hb. destruct url as [p q h0]. cbn [Path] in Hp. subst p.
    now apply getFunctionNameFromUrl_after_slash.
  - split; [reflexivity|]. intros e He. unfold svc2fn. now rewrite He.
Qed.

(** *** The auto-creation policy *)

Lemma createIfUndefined_disabled f fnName w :
  CreateUndefinedFunctions f = false ->
  createIfUndefined f fnName w = (tt, w).
Proof. intros Hc. unfold createIfUndefined. now rewrite Hc. Qed.

Lemma createIfUndefined_known f fnName w (fn : Function) :
  CreateUndefinedFunctions f = true ->
  Platform_Get (platform w) fnName = Some fn ->
  createIfUndefined f fnName w = (tt, record (Get_call fnName) w).
Proof.
  intros Hc Hg. unfold createIfUndefined. rewrite Hc.
  unfold mbind, M_bind, Get. now rewrite Hg.
Qed.

Lemma createIfUndefined_unknown f fnName w :
  CreateUndefinedFunctions f = true ->
  Platform_Get (platform w) fnName = None ->
  createIfUndefined f fnName w =
    (tt, {| platform := Platform_Define (platform w) fnName (FnFactory f fnName);
            calls := calls w ++ [Get_call fnName; FnFactory_call fnName;
                                 Define_call fnName (FnFactory f fnName)];
            goroutines := goroutines w |}).
Proof.
  intros Hc Hg. unfold createIfUndefined. rewrite Hc.
  unfold mbind, M_bind, Get. rewrite Hg.
  unfold callFnFactory, Define, with_platform, record. cbn.
  now rewrite <- !app_assoc.
Qed.

(** The policy never starts a goroutine and never runs or deploys. *)
Lemma createIfUndefined_goroutines f fnName w :
  goroutines (createIfUndefined f fnName w).2 = goroutines w.
Proof.
  destruct (CreateUndefinedFunctions f) eqn:Hc.
  - destruct (Platform_Get (platform w) fnName) as [fn|] eqn:Hg.
    + now rewrite (createIfUndefined_known _ _ _ fn).
    + now rewrite createIfUndefined_unknown.
  - now rewrite createIfUndefined_disabled.
Qed.

(** *** The three operations, one step at a time *)

Lemma len_nonempty (s : string) : s <> EmptyString -> (strings.len s =? 0) = false.
Proof.
  intros Hs. destruct s as [|c s]; [congruence|].
  unfold strings.len. simpl String.length. apply Z.eqb_neq. lia.
Qed.

Lemma GetServiceForFunction_eq f fnName w :
  GetServiceForFunction f fnName w =
    (match Platform_Get (platform (createIfUndefined f fnName w).2) fnName with
     | None => Err ErrFunctionNotFound
     | Some fn => Ok (Function_name fn)
     end,
     record (Get_call fnName) (createIfUndefined f fnName w).2).
Proof.
  unfold GetServiceForFunction, mbind, M_bind, Get.
  destruct (createIfUndefined f fnName w) as [[] w1]. cbn [snd].
  destruct (Platform_Get (platform w1) fnName); reflexivity.
Qed.

Lemma TapService_eq f (svcURL : string) w :
  svcURL <> EmptyString ->
  TapService f svcURL w =
    match Platform_Get (platform (createIfUndefined f (svc2fn svcURL) w).2) (svc2fn svcURL) with
    | None => (Some ErrFunctionNotFound,
               record (Get_call (svc2fn svcURL)) (createIfUndefined f (svc2fn svcURL) w).2)
    | Some fn =>
        (None,
         {| platform := platform (createIfUndefined f (svc2fn svcURL) w).2;
            calls := calls (createIfUndefined f (svc2fn svcURL) w).2
                       ++ [Get_call (svc2fn svcURL); go_call fn];
            goroutines := goroutines (createIfUndefined f (svc2fn svcURL) w).2 ++ [fn] |})
    end.
Proof.
  intros Hs. unfold TapService. rewrite (len_nonempty _ Hs).
  unfold mbind, M_bind, Get.
  destruct (createIfUndefined f (svc2fn svcURL) w) as [[] w1]. cbn [snd].
  destruct (Platform_Get (platform w1) (svc2fn svcURL)); [|reflexivity].
  unfold go_deploy, record, mret, M_ret. cbn. now rewrite <- app_assoc.
Qed.

Lemma Run_eq f (r : Request) (runtime : option Duration) w :
  Run f r runtime w =
    (match (Platform_Run (platform (createIfUndefined f (getFunctionNameFromUrl (req_URL r)) w).2)
              (getFunctionNameFromUrl (req_URL r)) runtime).1 with
     | Err err => Err err
     | Ok report =>
         if useCustomFn (req_Header r) then
           match ioutil_ReadAll (req_Body r) with
           | Err err => Err err
           | Ok body =>
               match ExecFn (CustomFn f) (getFunctionNameFromUrl (req_URL r)) body with
               | Err err => Err err
               | Ok res => Ok (set_Response report res)
               end
           end
         else Ok report
     end,
     with_platform
       (Platform_Run (platform (createIfUndefined f (getFunctionNameFromUrl (req_URL r)) w).2)
          (getFunctionNameFromUrl (req_URL r)) runtime).2
       (record (Run_call (getFunctionNameFromUrl (req_URL r)) runtime)
          (createIfUndefined f (getFunctionNameFromUrl (req_URL r)) w).2)).
Proof.
  unfold Run, mbind, M_bind, PlatformRun.
  destruct (createIfUndefined f (getFunctionNameFromUrl (req_URL r)) w) as [[] w1].
  cbn [snd].
  destruct (Platform_Run (platform w1) (getFunctionNameFromUrl (req_URL r)) runtime)
    as [[report|err] p]; cbn [fst snd]; [|reflexivity].
  destruct (useCustomFn (req_Header r)); [|reflexivity].
  destruct (ioutil_ReadAll (req_Body r)) as [body|err]; [|reflexivity].
  destruct (ExecFn (CustomFn f) (getFunctionNameFromUrl (req_URL r)) body); reflexivity.
Qed.

(** *** Auto-creation *)

(** C2: with auto-creation on and [fnName] unknown to the platform, each of
    the three operations first looks the name up, calls the factory on the
    name and defines the function with what the factory returned, once, and
    only then goes on, on the platform that has the definition; when the
    name is known, none of them calls the factory or defines anything. *)
Theorem auto_creation_registers_once f w fnName :
  CreateUndefinedFunctions f = true ->
  (Platform_Get (platform w) fnName = None ->
     let cfg := FnFactory f fnName in
     let registration :=
       [Get_call fnName; FnFactory_call fnName; Define_call fnName cfg] in
     let p' := Platform_Define (platform w) fnName cfg in
     GetServiceForFunction f fnName w =
       (match Platform_Get p' fnName with
        | None => Err ErrFunctionNotFound
        | Some fn => Ok (Function_name fn)
        end,
        {| platform := p';
           calls := calls w ++ registration ++ [Get_call fnName];
           goroutines := goroutines w |})
     /\ (forall svcURL : string,
           svcURL <> EmptyString -> svc2fn svcURL = fnName ->
           calls (TapService f svcURL w).2 =
             calls w ++ registration ++ Get_call fnName ::
               match Platform_Get p' fnName with
               | Some fn => [go_call fn]
               | None => []
               end)
     /\ (forall (r : Request) (runtime : option Duration),
           getFunctionNameFromUrl (req_URL r) = fnName ->
           calls (Run f r runtime w).2 =
             calls w ++ registration ++ [Run_call fnName runtime]
           /\ platform (Run f r runtime w).2 = (Platform_Run p' fnName runtime).2))
  /\ (forall fn : Function,
        Platform_Get (platform w) fnName = Some fn ->
        GetServiceForFunction f fnName w =
          (Ok (Function_name fn),
           {| platform := platform w;
              calls := calls w ++ [Get_call fnName; Get_call fnName];
              goroutines := goroutines w |})
        /\ (forall svcURL : string,
              svcURL <> EmptyString -> svc2fn svcURL = fnName ->
              calls (TapService f svcURL w).2 =
                calls w ++ [Get_call fnName; Get_call fnName; go_call fn])
        /\ (forall (r : Request) (runtime : option Duration),
              getFunctionNameFromUrl (req_URL r) = fnName ->
              calls (Run f r runtime w).2 =
                calls w ++ [Get_call fnName; Run_call fnName runtime])).
Proof.
  intros Hc. split.
  - intros Hg cfg registration p'. subst cfg registration p'.
    split; [|split].
    + rewrite GetServiceForFunction_eq, createIfUndefined_unknown by assumption.
      world_eq.
    + intros svcURL Hs <-. rewrite TapService_eq by assumption.
      rewrite createIfUndefined_unknown by assumption. cbn [snd platform].
      destruct (Platform_Get (Platform_Define _ _ _) _); world_eq.
    + intros r runtime <-. rewrite Run_eq, createIfUndefined_unknown by assumption.
      split; world_eq.
  - intros fn Hg. split; [|split].
    + rewrite GetServiceForFunction_eq, (createIfUndefined_known _ _ _ fn) by assumption.
      cbn [snd record platform]. rewrite Hg. world_eq.
    + intros svcURL Hs <-. rewrite TapService_eq by assumption.
      rewrite (createIfUndefined_known _ _ _ fn) by assumption.
      cbn [snd record platform]. rewrite Hg. world_eq.
    + intros r runtime <-. rewrite Run_eq, (createIfUndefined_known _ _ _ fn) by assumption.
      world_eq.
Qed.

(** On a platform where a defined function is found, the call after the
    one that registered the function registers nothing. *)
Lemma second_call_registers_nothing f w fnName :
  CreateUndefinedFunctions f = true ->
  Platform_Get (platform w) fnName = None ->
  Define_registers ->
  calls (GetServiceForFunction f fnName (GetServiceForFunction f fnName w).2).2 =
    calls w ++ [Get_call fnName; FnFactory_call fnName;
                Define_call fnName (FnFactory f fnName); Get_call fnName]
            ++ [Get_call fnName; Get_call fnName].
Proof.
  intros Hc Hg Hdef.
  rewrite (GetServiceForFunction_eq f fnName w), createIfUndefined_unknown by assumption.
  cbn [snd].
  destruct (Hdef (platform w) fnName (FnFactory f fnName)) as [fn Hfn].
  rewrite GetServiceForFunction_eq, (createIfUndefined_known _ _ _ fn) by assumption.
  world_eq.
Qed.

(** C5: with auto-creation off and [fnName] unknown to the platform,
    [GetServiceForFunction] and [TapService] (of a service URL that is not
    empty) fail with [ErrFunctionNotFound] after the one lookup, and so does
    [Run] on a platform whose run rejects unknown names, after the one run
    call; none calls the factory or defines anything, and none starts a
    deployment. *)
Theorem unknown_function_not_found f w fnName :
  CreateUndefinedFunctions f = false ->
  Platform_Get (platform w) fnName = None ->
  GetServiceForFunction f fnName w = (Err ErrFunctionNotFound, record (Get_call fnName) w)
  /\ (forall svcURL : string,
        svcURL <> EmptyString -> svc2fn svcURL = fnName ->
        TapService f svcURL w = (Some ErrFunctionNotFound, record (Get_call fnName) w))
  /\ (forall (r : Request) (runtime : option Duration),
        getFunctionNameFromUrl (req_URL r) = fnName ->
        Run_rejects_unknown ->
        (Run f r runtime w).1 = Err ErrFunctionNotFound
        /\ calls (Run f r runtime w).2 = calls w ++ [Run_call fnName runtime]
        /\ goroutines (Run f r runtime w).2 = goroutines w).
Proof.
  intros Hc Hg. split; [|split].
  - rewrite GetServiceForFunction_eq, createIfUndefined_disabled by assumption.
    cbn [snd]. now rewrite Hg.
  - intros svcURL Hs <-. rewrite TapService_eq by assumption.
    rewrite createIfUndefined_disabled by assumption. cbn [snd]. now rewrite Hg.
  - intros r runtime <- Hrun. rewrite Run_eq, createIfUndefined_disabled by assumption.
    cbn [fst snd]. rewrite (Hrun _ _ runtime Hg). repeat split.
Qed.

(** C7: [TapService] of the empty string returns the error "no url provided
    to tap" and leaves the world as it was: no call to the platform or to
    the factory is made and no goroutine is started. *)
Theorem TapService_empty_url f w :
  TapService f EmptyString w = (Some (errors_New "no url provided to tap"), w)
  /\ platform (TapService f EmptyString w).2 = platform w
  /\ calls (TapService f EmptyString w).2 = calls w
  /\ goroutines (TapService f EmptyString w).2 = goroutines w
  /\ (TapService f EmptyString w).1 <> Some ErrFunctionNotFound
  /\ (TapService f EmptyString w).1 <> None.
Proof. repeat split; discriminate. Qed.

(** *** Run and the custom response *)

Lemma useCustomFn_spec (h : Header) :
  (useCustomFn h = true <-> Header_Get h CUSTOM_FN_HEADER <> EmptyString)
  /\ (useCustomFn h = false <-> Header_Get h CUSTOM_FN_HEADER = EmptyString).
Proof.
  unfold useCustomFn.
  destruct (String.eqb_spec (Header_Get h CUSTOM_FN_HEADER) EmptyString) as [E|E];
    cbn [negb]; repeat split; intros; congruence.
Qed.

(** A failed platform run is the result of [Run], whatever the header. *)
Lemma Run_platform_error f (r : Request) (runtime : option Duration) w (err : error) :
  (Platform_Run (platform (createIfUndefined f (getFunctionNameFromUrl (req_URL r)) w).2)
     (getFunctionNameFromUrl (req_URL r)) runtime).1 = Err err ->
  (Run f r runtime w).1 = Err err.
Proof. intros Hr. rewrite Run_eq. cbn [fst]. now rewrite Hr. Qed.

(** C4: when the platform run of a request succeeds with [report] and the
    request has a non-empty marker header, the whole body is read and given
    with the function name to the dispatcher: its output replaces the
    response of the report and nothing else, its error (or the error of the
    read) is the only result; without the header the report comes back as
    the platform gave it. *)
Theorem Run_custom_response f (r : Request) (runtime : option Duration) w
    (report : ExecutionReport ReportFields) :
  (Platform_Run (platform (createIfUndefined f (getFunctionNameFromUrl (req_URL r)) w).2)
     (getFunctionNameFromUrl (req_URL r)) runtime).1 = Ok report ->
  (Header_Get (req_Header r) CUSTOM_FN_HEADER <> EmptyString ->
     (forall body : string,
        ioutil_ReadAll (req_Body r) = Ok body ->
        body = body_data (req_Body r)
        /\ (forall res : string,
              ExecFn (CustomFn f) (getFunctionNameFromUrl (req_URL r)) body = Ok res ->
              (Run f r runtime w).1 = Ok (set_Response report res)
              /\ Response (set_Response report res) = res
              /\ report_fields (set_Response report res) = report_fields report)
        /\ (forall err : error,
              ExecFn (CustomFn f) (getFunctionNameFromUrl (req_URL r)) body = Err err ->
              (Run f r runtime w).1 = Err err))
     /\ (forall err : error,
           ioutil_ReadAll (req_Body r) = Err err -> (Run f r runtime w).1 = Err err))
  /\ (Header_Get (req_Header r) CUSTOM_FN_HEADER = EmptyString ->
       (Run f r runtime w).1 = Ok report).
Proof.
  intros Hrun. rewrite Run_eq. cbn [fst]. rewrite Hrun. split.
  - intros Hh. apply useCustomFn_spec in Hh. rewrite Hh. split.
    + intros body Hbody. rewrite Hbody. split; [|split].
      * unfold ioutil_ReadAll in Hbody. destruct (body_err (req_Body r)); congruence.
      * intros res ->. repeat split.
      * now intros err ->.
    + now intros err ->.
  - intros Hh. apply useCustomFn_spec in Hh. now rewrite Hh.
Qed.

(** C10: a path that ends in a slash gives the empty name, and [Run] goes
    on with it: the auto-creation policy and then the platform run are
    applied to the empty name; a path without a slash is the name. *)
Theorem empty_identity_not_rejected f (r : Request) (runtime : option Duration) w
    (p : string) :
  Path (req_URL r) = p +:+ "/" ->
  getFunctionNameFromUrl (req_URL r) = EmptyString
  /\ calls (Run f r runtime w).2 =
       calls (createIfUndefined f EmptyString w).2 ++ [Run_call EmptyString runtime]
  /\ platform (Run f r runtime w).2 =
       (Platform_Run (platform (createIfUndefined f EmptyString w).2) EmptyString runtime).2
  /\ (CreateUndefinedFunctions f = true ->
       Platform_Get (platform w) EmptyString = None ->
       calls (Run f r runtime w).2 =
         calls w ++ [Get_call EmptyString; FnFactory_call EmptyString;
                     Define_call EmptyString (FnFactory f EmptyString);
                     Run_call EmptyString runtime])
  /\ (useCustomFn (req_Header r) = false ->
       (Run f r runtime w).1 =
         (Platform_Run (platform (createIfUndefined f EmptyString w).2) EmptyString runtime).1)
  /\ forall url : URL,
       strings.Contains (Path url) "/"%char = false ->
       getFunctionNameFromUrl url = Path url.
Proof.
  intros Hp.
  assert (Hn : getFunctionNameFromUrl (req_URL r) = EmptyString).
  { destruct (req_URL r) as [path q host]. cbn [Path] in Hp. subst path.
    now apply getFunctionNameFromUrl_after_slash. }
  split; [exact Hn|]. rewrite Run_eq, Hn. cbn [fst snd].
  split; [world_eq|]. split; [world_eq|]. split; [|split].
  - intros Hc Hg. rewrite createIfUndefined_unknown by assumption. world_eq.
  - intros Hh. rewrite Hh.
    destruct (Platform_Run _ EmptyString runtime).1; reflexivity.
  - apply getFunctionNameFromUrl_no_slash.
Qed.

(** *** The HTTP handlers *)

Lemma http_Error_unwritten (wr : ResponseWriter) (msg : string) (code : Z) :
  status wr = None ->
  http_Error wr msg code = {| status := Some code; written := written wr +:+ (msg +:+ LF) |}.
Proof. intros Hs. unfold http_Error, Write, WriteHeader. now rewrite Hs. Qed.

(** The platform is asked to run with the duration made from the parsed
    seconds, never with a nil override. *)
Lemma HandleFunctionRun_world f (wr : ResponseWriter) (r : Request) w (seconds : float) :
  parse_seconds r = Ok seconds ->
  (HandleFunctionRun f wr r w).2 = (Run f r (Some (seconds_to_Duration seconds)) w).2.
Proof.
  intros Hs. unfold HandleFunctionRun. rewrite Hs. unfold mbind, M_bind.
  destruct (Run f r (Some (seconds_to_Duration seconds)) w) as [[report|err] w1];
    [destruct (json_Marshal report)|]; reflexivity.
Qed.

Lemma HandleFunctionRun_runtime_present f (wr : ResponseWriter) (r : Request) w
    (seconds : float) :
  Values_Get (URL_Query (req_URL r)) "runtime" <> EmptyString ->
  strconv_ParseFloat (Values_Get (URL_Query (req_URL r)) "runtime") = Ok seconds ->
  calls (HandleFunctionRun f wr r w).2 =
    calls (createIfUndefined f (getFunctionNameFromUrl (req_URL r)) w).2
      ++ [Run_call (getFunctionNameFromUrl (req_URL r)) (Some (seconds_to_Duration seconds))].
Proof.
  intros Hq Hp. rewrite (HandleFunctionRun_world _ _ _ _ seconds).
  - rewrite Run_eq. world_eq.
  - unfold parse_seconds.
    destruct (Values_Get (URL_Query (req_URL r)) "runtime") as [|c q]; [congruence|].
    exact Hp.
Qed.

(** C3 (what the code does): without a [runtime] parameter, or with an empty
    one, [seconds] keeps its zero value and [HandleFunctionRun] passes the
    address of a zero duration: the platform is asked to run with the
    override [Some 0], not with a nil one. *)
Theorem HandleFunctionRun_runtime_absent f (wr : ResponseWriter) (r : Request) w :
  Values_Get (URL_Query (req_URL r)) "runtime" = EmptyString ->
  parse_seconds r = Ok 0%float
  /\ seconds_to_Duration 0%float = 0
  /\ (HandleFunctionRun f wr r w).2 = (Run f r (Some 0) w).2
  /\ calls (HandleFunctionRun f wr r w).2 =
       calls (createIfUndefined f (getFunctionNameFromUrl (req_URL r)) w).2
         ++ [Run_call (getFunctionNameFromUrl (req_URL r)) (Some 0)]
  /\ (HandleFunctionRun f wr r w).2 <> (Run f r None w).2.
Proof.
  intros Hq.
  assert (Hs : parse_seconds r = Ok 0%float) by (unfold parse_seconds; now rewrite Hq).
  assert (Hz : seconds_to_Duration 0%float = 0) by reflexivity.
  assert (Hw : (HandleFunctionRun f wr r w).2 = (Run f r (Some 0) w).2).
  { rewrite (HandleFunctionRun_world _ _ _ _ _ Hs). now rewrite Hz. }
  repeat split; try assumption.
  - rewrite Hw, Run_eq. world_eq.
  - rewrite Hw, !Run_eq. cbn [snd]. intros Heq.
    apply (f_equal calls) in Heq. revert Heq. world_eq.
    intros Heq. apply app_inv_head in Heq. discriminate.
Qed.

(** A body that decodes raises no input error, whatever name it gives (the
    empty one when the member is missing): the name is looked up, and the
    answer is 200 with the service or 404 with the message of the error. *)
Lemma HandleGetServiceForFunction_decoded f (wr : ResponseWriter) (r : Request) w
    (bs : string) (meta : ObjectMeta) :
  status wr = None ->
  ioutil_ReadAll (req_Body r) = Ok bs ->
  json_Unmarshal bs = Ok meta ->
  HandleGetServiceForFunction f wr r w =
    (match (GetServiceForFunction f (Name meta) w).1 with
     | Ok svc => {| status := Some 200; written := written wr +:+ svc |}
     | Err err => {| status := Some 404; written := written wr +:+ (Error err +:+ LF) |}
     end, (GetServiceForFunction f (Name meta) w).2).
Proof.
  intros Hw Hb Hj. unfold HandleGetServiceForFunction. rewrite Hb, Hj.
  unfold mbind, M_bind.
  destruct (GetServiceForFunction f (Name meta) w) as [[svc|err] w1]; cbn [fst snd].
  - unfold mret, M_ret, Write, WriteHeader. rewrite Hw. reflexivity.
  - unfold mret, M_ret. now rewrite http_Error_unwritten.
Qed.

(** C8 (as amended): a request that fails on its input gets status 400.  The
    body is the message of the error and a line feed for a [runtime]
    parameter that does not parse; it is a fixed text and a line feed, not
    the message of the error, for a JSON body that does not decode and for
    an empty tap URL.  None of the three touches the platform.  A JSON body
    that decodes is no input error, whatever name it gives: the name is
    looked up and the answer is 200 or 404. *)
Theorem input_errors_get_400 f (wr : ResponseWriter) (r : Request) w :
  status wr = None ->
  (forall e : error,
     Values_Get (URL_Query (req_URL r)) "runtime" <> EmptyString ->
     strconv_ParseFloat (Values_Get (URL_Query (req_URL r)) "runtime") = Err e ->
     HandleFunctionRun f wr r w =
       ({| status := Some 400; written := written wr +:+ (Error e +:+ LF) |}, w))
  /\ (forall (bs : string) (e : error),
        ioutil_ReadAll (req_Body r) = Ok bs ->
        json_Unmarshal bs = Err e ->
        HandleGetServiceForFunction f wr r w =
          ({| status := Some 400;
              written := written wr +:+ ("failed to parse function metadata" +:+ LF) |}, w))
  /\ (ioutil_ReadAll (req_Body r) = Ok EmptyString ->
       (TapService f EmptyString w).1 = Some (errors_New "no url provided to tap")
       /\ HandleTapService f wr r w =
            ({| status := Some 400;
                written := written wr +:+ ("failed to parse service to tap" +:+ LF) |}, w))
  /\ (forall (bs : string) (meta : ObjectMeta),
        ioutil_ReadAll (req_Body r) = Ok bs ->
        json_Unmarshal bs = Ok meta ->
        HandleGetServiceForFunction f wr r w =
          (match (GetServiceForFunction f (Name meta) w).1 with
           | Ok svc => {| status := Some 200; written := written wr +:+ svc |}
           | Err err => {| status := Some 404; written := written wr +:+ (Error err +:+ LF) |}
           end, (GetServiceForFunction f (Name meta) w).2)).
Proof.
  intros Hw. split; [|split; [|split]].
  - intros e Hq Hp. unfold HandleFunctionRun, parse_seconds.
    destruct (Values_Get (URL_Query (req_URL r)) "runtime") as [|c q] eqn:E; [congruence|].
    change (0 <? strings.len (String c q)) with (0 <? Z.of_nat (Datatypes.S (String.length q))).
    destruct (Z.ltb_spec 0 (Z.of_nat (Datatypes.S (String.length q)))); [|lia].
    rewrite Hp. unfold mret, M_ret. now rewrite http_Error_unwritten.
  - intros bs e Hb Hj. unfold HandleGetServiceForFunction. rewrite Hb, Hj.
    unfold mret, M_ret. now rewrite http_Error_unwritten.
  - intros Hb. split; [reflexivity|].
    unfold HandleTapService. rewrite Hb. unfold mbind, M_bind.
    cbn. now rewrite http_Error_unwritten.
  - intros bs meta Hb Hj. now apply (HandleGetServiceForFunction_decoded f wr r w bs meta).
Qed.

(** *** The tap goroutine *)

(** When the function is there, [TapService] returns [nil] with the closure
    started and not run: the call itself asks the platform for no deploy. *)
Lemma TapService_starts_goroutine f (svcURL : string) w (fn : Function) :
  svcURL <> EmptyString ->
  Platform_Get (platform (createIfUndefined f (svc2fn svcURL) w).2) (svc2fn svcURL) = Some fn ->
  (TapService f svcURL w).1 = None
  /\ platform (TapService f svcURL w).2 = platform (createIfUndefined f (svc2fn svcURL) w).2
  /\ calls (TapService f svcURL w).2 =
       calls (createIfUndefined f (svc2fn svcURL) w).2 ++ [Get_call (svc2fn svcURL); go_call fn]
  /\ goroutines (TapService f svcURL w).2 = goroutines w ++ [fn].
Proof.
  intros Hs Hg. rewrite TapService_eq by assumption. rewrite Hg.
  cbn [fst snd platform calls goroutines].
  now rewrite createIfUndefined_goroutines.
Qed.

(** The started closure can run afterwards; its deploy is then the next
    call, and its error goes nowhere. *)
Lemma started_goroutine_runs_later f (svcURL : string) w (fn : Function) :
  svcURL <> EmptyString ->
  Platform_Get (platform (createIfUndefined f (svc2fn svcURL) w).2) (svc2fn svcURL) = Some fn ->
  exists w', sched (TapService f svcURL w).2 w'
    /\ calls w' = calls (TapService f svcURL w).2 ++ [deploy_call fn]
    /\ platform w' = (Platform_deploy (platform (TapService f svcURL w).2) fn).2.
Proof.
  intros Hs Hg.
  destruct (TapService_starts_goroutine f svcURL w fn Hs Hg) as (_ & _ & _ & Hgo).
  eexists. split.
  - apply (sched_run _ (length (goroutines w)) fn).
    rewrite Hgo. now rewrite lookup_app_r, Nat.sub_diag by lia.
  - unfold deploy_body. cbn [platform calls].
    destruct (Platform_deploy (platform (TapService f svcURL w).2) fn) as [e p'].
    split; reflexivity.
Qed.

End FissionFacts.

(** ** The code at work on the demo instance *)

Section Examples.
Local Existing Instance Demo.platform_api.
Local Existing Instance Demo.lib.
Local Open Scope list_scope.

Lemma Demo_Run_rejects_unknown : Run_rejects_unknown.
Proof.
  intros p n rt Hg. cbn in *. destruct (Demo.fns p !! n); [discriminate | reflexivity].
Qed.

(** The identities the spec names. *)
Example identities_of_the_spec :
  svc2fn "http://foo.bar/baz" = "foo.bar"
  /\ getFunctionNameFromUrl {| Path := "/fission-function/myfn"; RawQuery := "runtime=2.5";
                                Host := EmptyString |} = "myfn"
  /\ svc2fn ":foo" = ":foo".
Proof. repeat split. Qed.

(** The routes of [Serve], each reached by its own path, and the not-found
    answer for a path none of them matches. *)
Example Serve_dispatch (w : World) :
  ServeHTTP (Serve (Demo.fission false)) fresh_writer
    (Demo.request "/v2/functions/all" EmptyString ∅ EmptyString) w
  = ({| status := Some 200; written := "{}" |}, w)
  /\ ServeHTTP (Serve (Demo.fission false)) fresh_writer
       (Demo.request "/v3/other" EmptyString ∅ EmptyString) w
     = ({| status := Some 404; written := "404 page not found" +:+ LF |}, w).
Proof. split; reflexivity. Qed.

(** C1, a counterexample to the claim as stated: on the routes of [Serve],
    the first and the second pattern both match this path, and the router
    invokes neither the handler of the second nor that of the first, but
    the handler of the fourth pattern, which matches too. *)
Lemma earlier_of_three_matches_not_served :
  exists rt1 rt2 : route World,
    routes (Serve (Demo.fission false)) !! 0%nat = Some rt1
    /\ routes (Serve (Demo.fission false)) !! 1%nat = Some rt2
    /\ regexp_MatchString (pattern rt1) "/fission-function/v2/functions/v2/tapService" = true
    /\ regexp_MatchString (pattern rt2) "/fission-function/v2/functions/v2/tapService" = true
    /\ ServeHTTP (Serve (Demo.fission false)) fresh_writer
         (Demo.request "/fission-function/v2/functions/v2/tapService" EmptyString ∅ EmptyString)
         (Demo.world Demo.no_functions)
       <> handler rt2 fresh_writer
            (Demo.request "/fission-function/v2/functions/v2/tapService" EmptyString ∅ EmptyString)
            (Demo.world Demo.no_functions)
    /\ ServeHTTP (Serve (Demo.fission false)) fresh_writer
         (Demo.request "/fission-function/v2/functions/v2/tapService" EmptyString ∅ EmptyString)
       = HandleFunctionRun (Demo.fission false) fresh_writer
           (Demo.request "/fission-function/v2/functions/v2/tapService" EmptyString ∅ EmptyString).
Proof.
  eexists _, _. split; [reflexivity|]. split; [reflexivity|].
  split; [reflexivity|]. split; [reflexivity|]. split; [|reflexivity].
  intros Heq. apply (f_equal (fun x => written x.1)) in Heq.
  vm_compute in Heq. discriminate.
Qed.

(** C1, the theorem at work: a path that the second and the fourth pattern
    of [Serve] match is served by the handler of the fourth. *)
Lemma ServeHTTP_most_recent_match_wins_witness :
  ServeHTTP (Serve (Demo.fission false)) fresh_writer
    (Demo.request "/fission-function/v2/tapService" EmptyString ∅ EmptyString)
  = HandleFunctionRun (Demo.fission false) fresh_writer
      (Demo.request "/fission-function/v2/tapService" EmptyString ∅ EmptyString).
Proof.
  destruct (ServeHTTP_most_recent_match_wins (Serve (Demo.fission false)) fresh_writer
              (Demo.request "/fission-function/v2/tapService" EmptyString ∅ EmptyString))
    as (_ & _ & Hpair & _).
  destruct (Hpair 1%nat 3%nat
              {| pattern := regexp_MustCompile "/v2/tapService";
                 handler := HandleTapService (Demo.fission false) |}
              {| pattern := regexp_MustCompile "/fission-function/.*";
                 handler := HandleFunctionRun (Demo.fission false) |}
              ltac:(lia) eq_refl eq_refl eq_refl eq_refl)
    as (k & rt & _ & _ & _ & _ & _ & _ & _ & Hlast).
  destruct Hlast as [_ Hserve]; [|exact Hserve].
  intros k' rt' Hk' Hl. apply lookup_lt_Some in Hl. cbn in Hl. lia.
Defined.

(** C2, the theorem at work: the first call for [myfn] registers it once,
    and a call when it is known registers nothing. *)
Lemma auto_creation_registers_once_witness :
  GetServiceForFunction (Demo.fission true) "myfn" (Demo.world Demo.no_functions)
  = (Ok "myfn",
     {| platform := {| Demo.fns := {[ "myfn" := 2 * Second ]}; Demo.deployed := [] |};
        calls := [Get_call "myfn"; FnFactory_call "myfn";
                  Define_call "myfn" (2 * Second); Get_call "myfn"];
        goroutines := [] |})
  /\ calls (Run (Demo.fission true)
              (Demo.request "/fission-function/myfn" EmptyString ∅ EmptyString) None
              (Demo.world Demo.with_myfn)).2
     = [Get_call "myfn"; Run_call "myfn" None].
Proof.
  split.
  - exact (proj1 (proj1 (auto_creation_registers_once (Demo.fission true)
                           (Demo.world Demo.no_functions) "myfn" eq_refl) eq_refl)).
  - exact (proj2 (proj2 (proj2 (auto_creation_registers_once (Demo.fission true)
                                  (Demo.world Demo.with_myfn) "myfn" eq_refl)
                           {| Demo.name := "myfn"; Demo.config := 3 * Second |} eq_refl))
             (Demo.request "/fission-function/myfn" EmptyString ∅ EmptyString) None eq_refl).
Defined.

(** C5, the theorem at work: with auto-creation off, the three operations
    on the unknown [ghost]. *)
Lemma unknown_function_not_found_witness :
  GetServiceForFunction (Demo.fission false) "ghost" (Demo.world Demo.with_myfn)
  = (Err ErrFunctionNotFound, record (Get_call "ghost") (Demo.world Demo.with_myfn))
  /\ TapService (Demo.fission false) "http://ghost/" (Demo.world Demo.with_myfn)
     = (Some ErrFunctionNotFound, record (Get_call "ghost") (Demo.world Demo.with_myfn))
  /\ (Run (Demo.fission false)
        (Demo.request "/fission-function/ghost" EmptyString ∅ EmptyString) None
        (Demo.world Demo.with_myfn)).1 = Err ErrFunctionNotFound.
Proof.
  destruct (unknown_function_not_found (Demo.fission false) (Demo.world Demo.with_myfn)
              "ghost" eq_refl eq_refl) as (Hget & Htap & Hrun).
  split; [exact Hget|]. split.
  - apply Htap; [discriminate | reflexivity].
  - apply (Hrun (Demo.request "/fission-function/ghost" EmptyString ∅ EmptyString) None
             eq_refl Demo_Run_rejects_unknown).
Defined.

(** C4, the theorem at work: with the marker header, the report carries the
    output of the generator of [myfn] for the body of the request. *)
Lemma Run_custom_response_witness :
  (Run (Demo.fission false)
     (Demo.request "/fission-function/myfn" EmptyString Demo.marker "payload") None
     (Demo.world Demo.with_myfn)).1
  = Ok {| Response := "echo:payload"; report_fields := 3 * Second |}.
Proof.
  destruct (Run_custom_response (Demo.fission false)
              (Demo.request "/fission-function/myfn" EmptyString Demo.marker "payload") None
              (Demo.world Demo.with_myfn)
              {| Response := "done"; report_fields := 3 * Second |} eq_refl) as [Hwith _].
  destruct Hwith as [Hbody _]; [vm_compute; discriminate|].
  destruct (Hbody "payload" eq_refl) as (_ & Hok & _).
  exact (proj1 (Hok "echo:payload" eq_refl)).
Defined.

(** C10, the theorem at work: a request to [/fission-function/] with
    auto-creation on defines and runs the function with the empty name. *)
Lemma empty_identity_not_rejected_witness :
  calls (Run (Demo.fission true)
           (Demo.request "/fission-function/" EmptyString ∅ EmptyString) None
           (Demo.world Demo.no_functions)).2
  = [Get_call EmptyString; FnFactory_call EmptyString;
     Define_call EmptyString (2 * Second); Run_call EmptyString None].
Proof.
  destruct (empty_identity_not_rejected (Demo.fission true)
              (Demo.request "/fission-function/" EmptyString ∅ EmptyString) None
              (Demo.world Demo.no_functions) "/fission-function" eq_refl)
    as (_ & _ & _ & Hcalls & _).
  exact (Hcalls eq_refl eq_refl).
Defined.

(** C3, the code at the failing input: a request for [myfn], configured for
    three seconds, without a [runtime] parameter asks the platform to run
    with an override of zero. *)
Lemma HandleFunctionRun_runtime_absent_witness :
  calls (HandleFunctionRun (Demo.fission false) fresh_writer
           (Demo.request "/fission-function/myfn" EmptyString ∅ EmptyString)
           (Demo.world Demo.with_myfn)).2
  = [Run_call "myfn" (Some 0)].
Proof.
  assert (Hq : Values_Get (URL_Query (req_URL
                 (Demo.request "/fission-function/myfn" EmptyString ∅ EmptyString)))
                 "runtime" = EmptyString) by (vm_compute; reflexivity).
  destruct (HandleFunctionRun_runtime_absent (Demo.fission false) fresh_writer
              (Demo.request "/fission-function/myfn" EmptyString ∅ EmptyString)
              (Demo.world Demo.with_myfn) Hq) as (_ & _ & _ & Hcalls & _).
  exact Hcalls.
Defined.

(** With the parameter, the parsed seconds are the override. *)
Example HandleFunctionRun_runtime_2_5 :
  calls (HandleFunctionRun (Demo.fission false) fresh_writer
           (Demo.request "/fission-function/myfn" "runtime=2.5" ∅ EmptyString)
           (Demo.world Demo.with_myfn)).2
  = [Run_call "myfn" (Some 2500000000)].
Proof. reflexivity. Qed.

(** C8, a counterexample to the claim as stated: the tap of an empty URL
    fails with the error "no url provided to tap", and the body of the
    answer is another text; a JSON body that does not decode fails with the
    decoder's error, and the body of the answer is another text too; and a
    JSON body without a name is answered with 200 when auto-creation is on. *)
Lemma input_error_body_is_not_the_message :
  (TapService (Demo.fission false) EmptyString (Demo.world Demo.no_functions)).1
    = Some (errors_New "no url provided to tap")
  /\ (HandleTapService (Demo.fission false) fresh_writer
        (Demo.request "/v2/tapService" EmptyString ∅ EmptyString)
        (Demo.world Demo.no_functions)).1
     = {| status := Some 400; written := "failed to parse service to tap" +:+ LF |}
  /\ "failed to parse service to tap" +:+ LF <> Error (errors_New "no url provided to tap")
  /\ "failed to parse service to tap" +:+ LF
       <> Error (errors_New "no url provided to tap") +:+ LF
  /\ json_Unmarshal "{" = Err (errors_New "unexpected end of JSON input")
  /\ (HandleGetServiceForFunction (Demo.fission false) fresh_writer
        (Demo.request "/v2/getServiceForFunction" EmptyString ∅ "{")
        (Demo.world Demo.no_functions)).1
     = {| status := Some 400; written := "failed to parse function metadata" +:+ LF |}
  /\ json_Unmarshal "{}" = Ok {| Name := EmptyString |}
  /\ (HandleGetServiceForFunction (Demo.fission true) fresh_writer
        (Demo.request "/v2/getServiceForFunction" EmptyString ∅ "{}")
        (Demo.world Demo.no_functions)).1
     = {| status := Some 200; written := EmptyString |}.
Proof. repeat split; discriminate. Qed.

(** C8, the theorem at work: the three input errors on the demo. *)
Lemma input_errors_get_400_witness :
  HandleFunctionRun (Demo.fission false) fresh_writer
    (Demo.request "/fission-function/myfn" "runtime=soon" ∅ EmptyString)
    (Demo.world Demo.with_myfn)
  = ({| status := Some 400;
        written := "strconv.ParseFloat: parsing " +:+ Demo.quote +:+ "soon" +:+ Demo.quote
                   +:+ ": invalid syntax" +:+ LF |},
     Demo.world Demo.with_myfn)
  /\ HandleTapService (Demo.fission false) fresh_writer
       (Demo.request "/v2/tapService" EmptyString ∅ EmptyString)
       (Demo.world Demo.with_myfn)
     = ({| status := Some 400; written := "failed to parse service to tap" +:+ LF |},
        Demo.world Demo.with_myfn).
Proof.
  split.
  - assert (Hq : Values_Get (URL_Query (req_URL
                   (Demo.request "/fission-function/myfn" "runtime=soon" ∅ EmptyString)))
                   "runtime" = "soon") by (vm_compute; reflexivity).
    apply (proj1 (input_errors_get_400 (Demo.fission false) fresh_writer
                    (Demo.request "/fission-function/myfn" "runtime=soon" ∅ EmptyString)
                    (Demo.world Demo.with_myfn) eq_refl)
             (errors_New ("strconv.ParseFloat: parsing " +:+ Demo.quote +:+ "soon"
                          +:+ Demo.quote +:+ ": invalid syntax"))).
    + rewrite Hq. discriminate.
    + rewrite Hq. vm_compute. reflexivity.
  - exact (proj2 (proj1 (proj2 (proj2 (input_errors_get_400 (Demo.fission false) fresh_writer
                                         (Demo.request "/v2/tapService" EmptyString ∅ EmptyString)
                                         (Demo.world Demo.with_myfn) eq_refl))) eq_refl)).
Defined.

(** A tap of a known function: the call returns [nil] with the closure
    started, and the deploy is a later step of the scheduler. *)
Example tap_foo_bar :
  TapService (Demo.fission true) "http://foo.bar/baz" (Demo.world Demo.no_functions)
  = (None,
     {| platform := {| Demo.fns := {[ "foo.bar" := 2 * Second ]}; Demo.deployed := [] |};
        calls := [Get_call "foo.bar"; FnFactory_call "foo.bar";
                  Define_call "foo.bar" (2 * Second); Get_call "foo.bar";
                  go_call {| Demo.name := "foo.bar"; Demo.config := 2 * Second |}];
        goroutines := [{| Demo.name := "foo.bar"; Demo.config := 2 * Second |}] |}).
Proof. vm_compute. reflexivity. Qed.

End Examples.

(** ** More on the router *)

Section RouterDispatch.
Context `{GoLib} {S : Type}.
Implicit Types (rs : list (route S)) (rt : route S) (h : RegexpHandler S).
Local Open Scope list_scope.

Lemma Split_at_first (p q : string) (sep : ascii) :
  strings.Contains p sep = false ->
  strings.Split (p +:+ String sep q) sep = p :: strings.Split q sep.
Proof.
  induction p as [|c p IH]; intros Hp.
  - change (EmptyString +:+ String sep q) with (String sep q).
    cbn [strings.Split]. now rewrite Ascii.eqb_refl.
  - change (String c p +:+ String sep q) with (String c (p +:+ String sep q)).
    cbn [strings.Contains] in Hp. apply orb_false_iff in Hp as [Hc Hp].
    cbn [strings.Split]. now rewrite Hc, (IH Hp).
Qed.

(** X1: a [?] and what follows it in the request path take no part in
    routing: for a path [p?q], [ServeHTTP] invokes the handler of the last
    registered binding whose pattern matches [p], the same binding it
    invokes for the request whose path is [p], and it answers not found for
    both when no pattern matches [p]. *)
Theorem ServeHTTP_ignores_query h (w : ResponseWriter) (r1 r2 : Request) (p q : string) :
  strings.Contains p "?"%char = false ->
  Path (req_URL r1) = p +:+ String "?"%char q ->
  Path (req_URL r2) = p ->
  (exists k rt,
      routes h !! k = Some rt
      /\ regexp_MatchString (pattern rt) p = true
      /\ (forall k' rt', (k < k')%nat -> routes h !! k' = Some rt' ->
            regexp_MatchString (pattern rt') p = false)
      /\ ServeHTTP h w r1 = handler rt w r1
      /\ ServeHTTP h w r2 = handler rt w r2)
  \/ ((forall k rt, routes h !! k = Some rt -> regexp_MatchString (pattern rt) p = false)
      /\ ServeHTTP h w r1 = mret (http_NotFound w r1)
      /\ ServeHTTP h w r2 = mret (http_NotFound w r2)).
Proof.
  intros Hp H1 H2.
  assert (E1 : route_path r1 = p).
  { unfold route_path. rewrite H1, Split_at_first by assumption. reflexivity. }
  assert (E2 : route_path r2 = p).
  { unfold route_path. rewrite H2, Split_no_sep; [reflexivity|].
    now apply LastIndex_Contains. }
  destruct (ServeHTTP_cases h w r1) as [(k & rt & Hk & Hm & Hl & Es & Hs)|(Hn & Es & Hs)];
    rewrite E1 in *.
  - left. exists k, rt. repeat split; try assumption.
    unfold ServeHTTP. cbv zeta. rewrite E2. now rewrite Es.
  - right. repeat split; try assumption.
    unfold ServeHTTP. cbv zeta. rewrite E2. now rewrite Es.
Qed.

(** Below the length of the first list, a scan of two lists joined is a
    scan of the first. *)
Lemma scan_app_l rs1 rs2 (path : string) (n : nat) :
  (n <= length rs1)%nat -> scan (rs1 ++ rs2) path n = scan rs1 path n.
Proof.
  induction n as [|n IH]; intros Hn; [reflexivity|].
  cbn [scan]. rewrite lookup_app_l by lia. rewrite IH by lia. reflexivity.
Qed.

(** A scan of two lists joined looks through the second list first. *)
Lemma scan_app_r rs1 rs2 (path : string) (n : nat) :
  (n <= length rs2)%nat ->
  scan (rs1 ++ rs2) path (length rs1 + n) =
    match scan rs2 path n with
    | Some (i, rt) => Some ((length rs1 + i)%nat, rt)
    | None => scan rs1 path (length rs1)
    end.
Proof.
  induction n as [|n IH]; intros Hn.
  - rewrite Nat.add_0_r. cbn [scan]. now apply scan_app_l.
  - rewrite Nat.add_succ_r. cbn [scan].
    rewrite lookup_app_r by lia.
    replace (length rs1 + n - length rs1)%nat with n by lia.
    destruct (rs2 !! n) as [rt|] eqn:E.
    + destruct (regexp_MatchString (pattern rt) path); [reflexivity | apply IH; lia].
    + apply lookup_ge_None in E. lia.
Qed.

(** X2: registering a binding changes dispatch in one way only: a request
    its pattern matches goes to the new handler, whatever was registered
    before, and every other request is dispatched as before; a router with
    no binding answers not found.  [Handler] registers as [HandleFunc]. *)
Theorem ServeHTTP_HandleFunc h (p : Regexp) (hd : http_Handler S)
    (w : ResponseWriter) (r : Request) :
  ServeHTTP (HandleFunc h p hd) w r =
    (if regexp_MatchString p (route_path r) then hd w r else ServeHTTP h w r)
  /\ ServeHTTP (Handler h p hd) w r = ServeHTTP (HandleFunc h p hd) w r
  /\ ServeHTTP ({| routes := [] |} : RegexpHandler S) w r = mret (http_NotFound w r).
Proof.
  split; [|split; reflexivity].
  unfold ServeHTTP, HandleFunc. cbv zeta. cbn [routes].
  rewrite length_app. cbn [length].
  rewrite scan_app_r by (cbn; lia). cbn [scan lookup list_lookup pattern].
  destruct (regexp_MatchString p (route_path r)); reflexivity.
Qed.

End RouterDispatch.


(** ** More on the dispatcher and the marker header *)

(** X4: the dispatcher reads the registry at the key the resolver gives and
    nowhere else: a generator registered under that key is the one run, one
    registered under another key changes nothing, and with no generator under
    the key the call fails with "Parsed handler does not exist"; an error of
    the resolver is the result whatever the registry holds. *)
Theorem ExecFn_registry (c : CustomHandler) (fnName key other : string)
    (g : CustomFn_t) (b : string) :
  GetFn c fnName = Ok key ->
  other <> key ->
  ExecFn {| GetFn := GetFn c; Handlers := <[key := g]> (Handlers c) |} fnName b = g b
  /\ ExecFn {| GetFn := GetFn c; Handlers := <[other := g]> (Handlers c) |} fnName b
     = ExecFn c fnName b
  /\ ExecFn {| GetFn := GetFn c; Handlers := delete other (Handlers c) |} fnName b
     = ExecFn c fnName b
  /\ ExecFn {| GetFn := GetFn c; Handlers := delete key (Handlers c) |} fnName b
     = Err (errors_New "Parsed handler does not exist")
  /\ forall (c' : CustomHandler) (e : error),
       GetFn c' fnName = Err e -> ExecFn c' fnName b = Err e.
Proof.
  intros Hk Hne. unfold ExecFn. cbn [GetFn Handlers]. rewrite Hk.
  rewrite lookup_insert_eq, lookup_insert_ne, lookup_delete_ne, lookup_delete_eq
    by assumption.
  repeat split. intros c' e He. now rewrite He.
Qed.

(** X5: the marker is looked up under the canonical spelling [X-Customfn]
    of the header name, and only the first value stored there counts: the
    overlay is on exactly when that value is there and not empty. *)
Theorem useCustomFn_first_canonical_value (h : Header) :
  (useCustomFn h = true <->
     exists (v : string) (vs : list string),
       h !! "X-Customfn" = Some (v :: vs) /\ v <> EmptyString)
  /\ (h !! "X-Customfn" = None -> useCustomFn h = false)
  /\ (forall vs : list string,
        h !! "X-Customfn" = Some (EmptyString :: vs) -> useCustomFn h = false).
Proof.
  unfold useCustomFn, Header_Get.
  change (textproto.CanonicalMIMEHeaderKey CUSTOM_FN_HEADER) with "X-Customfn".
  destruct (h !! "X-Customfn") as [[|v vs]|] eqn:E.
  - split; [|split; [discriminate|discriminate]].
    split; [discriminate|]. intros (v & vs & Hv & _). discriminate.
  - split; [|split; [discriminate|]].
    + destruct (String.eqb_spec v EmptyString) as [->|Hv]; cbn [negb]; split.
      * discriminate.
      * intros (v' & vs' & [= <- <-] & Hne). congruence.
      * intros _. now exists v, vs.
      * reflexivity.
    + intros vs' [= -> ->]. reflexivity.
  - split; [|split; [reflexivity|discriminate]].
    split; [discriminate|]. intros (v & vs & Hv & _). discriminate.
Qed.

(** ** More on the facade *)

Section FissionFrame.
Context `{PlatformAPI} `{GoLib}.
Implicit Types (f : Fission) (w : World) (fnName : string).
Local Open Scope list_scope.

(** X3: the table of [Serve] in the order the router tries it: the
    invocation pattern first, then the lookup, the tap and the function-list
    patterns, and not found when none matches. *)
Theorem Serve_precedence f (w : ResponseWriter) (r : Request) :
  ServeHTTP (Serve f) w r =
    if regexp_MatchString (regexp_MustCompile "/fission-function/.*") (route_path r)
    then HandleFunctionRun f w r
    else if regexp_MatchString (regexp_MustCompile "/v2/getServiceForFunction") (route_path r)
    then HandleGetServiceForFunction f w r
    else if regexp_MatchString (regexp_MustCompile "/v2/tapService") (route_path r)
    then HandleTapService f w r
    else if regexp_MatchString (regexp_MustCompile "/v2/functions/.*") (route_path r)
    then HandleFunctionsGet f w r
    else mret (http_NotFound w r).
Proof.
  unfold ServeHTTP, Serve, HandleFunc. cbv zeta.
  cbn [routes app length scan lookup list_lookup pattern handler].
  repeat (destruct (regexp_MatchString _ (route_path r)); [reflexivity|]).
  reflexivity.
Qed.

(** X6: [TapService] starts a deployment exactly when it returns [nil]: then
    one goroutine is started, for the function the platform gave for the name
    derived from the URL; when it returns an error, which is the input error
    or [ErrFunctionNotFound], none is started. *)
Theorem TapService_deploys_iff_nil f (svcURL : string) w :
  match (TapService f svcURL w).1 with
  | None =>
      svcURL <> EmptyString
      /\ exists fn : Function,
           Platform_Get (platform (TapService f svcURL w).2) (svc2fn svcURL) = Some fn
           /\ goroutines (TapService f svcURL w).2 = goroutines w ++ [fn]
  | Some err =>
      goroutines (TapService f svcURL w).2 = goroutines w
      /\ ((svcURL = EmptyString /\ err = errors_New "no url provided to tap")
          \/ (svcURL <> EmptyString /\ err = ErrFunctionNotFound))
  end.
Proof.
  destruct svcURL as [|c s].
  - cbn. split; [reflexivity|]. left. split; reflexivity.
  - assert (Hne : String c s <> EmptyString) by discriminate.
    rewrite TapService_eq by assumption.
    destruct (Platform_Get _ (svc2fn (String c s))) as [fn|] eqn:Hg; cbn [fst snd].
    + split; [assumption|]. exists fn. cbn [platform goroutines].
      split; [assumption|]. now rewrite createIfUndefined_goroutines.
    + unfold record. cbn [goroutines]. rewrite createIfUndefined_goroutines.
      split; [reflexivity|]. right. split; [assumption | reflexivity].
Qed.

(** X7: no operation but the tap starts a goroutine: the lookup and the run,
    and the handlers of the lookup, the run and the function list, leave the
    started goroutines as they were. *)
Theorem only_tap_starts_goroutines f w :
  (forall fnName, goroutines (GetServiceForFunction f fnName w).2 = goroutines w)
  /\ (forall (r : Request) (runtime : option Duration),
        goroutines (Run f r runtime w).2 = goroutines w)
  /\ (forall (wr : ResponseWriter) (r : Request),
        goroutines (HandleGetServiceForFunction f wr r w).2 = goroutines w
        /\ goroutines (HandleFunctionRun f wr r w).2 = goroutines w
        /\ goroutines (HandleFunctionsGet f wr r w).2 = goroutines w).
Proof.
  assert (Hget : forall fnName,
            goroutines (GetServiceForFunction f fnName w).2 = goroutines w).
  { intros fnName. rewrite GetServiceForFunction_eq. cbn [snd record goroutines].
    apply createIfUndefined_goroutines. }
  assert (Hrun : forall (r : Request) (runtime : option Duration),
            goroutines (Run f r runtime w).2 = goroutines w).
  { intros r runtime. rewrite Run_eq. cbn [snd with_platform record goroutines].
    apply createIfUndefined_goroutines. }
  split; [exact Hget|]. split; [exact Hrun|].
  intros wr r. split; [|split; [|reflexivity]].
  - unfold HandleGetServiceForFunction.
    destruct (ioutil_ReadAll (req_Body r)) as [bs|e]; [|reflexivity].
    destruct (json_Unmarshal bs) as [meta|e]; [|reflexivity].
    unfold mbind, M_bind. specialize (Hget (Name meta)).
    destruct (GetServiceForFunction f (Name meta) w) as [[svc|err] w1]; exact Hget.
  - destruct (parse_seconds r) as [seconds|e] eqn:Hs.
    + rewrite (HandleFunctionRun_world _ _ _ _ _ Hs). apply Hrun.
    + unfold HandleFunctionRun. now rewrite Hs.
Qed.

Lemma createIfUndefined_ext (f1 f2 : Fission) fnName w :
  CreateUndefinedFunctions f1 = CreateUndefinedFunctions f2 ->
  FnFactory f1 fnName = FnFactory f2 fnName ->
  createIfUndefined f1 fnName w = createIfUndefined f2 fnName w.
Proof.
  intros Hc Hf. unfold createIfUndefined. rewrite <- Hc.
  destruct (CreateUndefinedFunctions f1); [|reflexivity].
  unfold mbind, M_bind, Get, callFnFactory, Define.
  destruct (Platform_Get (platform w) fnName); [reflexivity|]. now rewrite Hf.
Qed.

(** X8: the custom response leaves no trace in the world: what [Run] does
    to the platform, the calls it makes and the goroutines depend on the
    function name, the override and the auto-creation setting only, not on
    the header, the body or the dispatcher, also when the dispatcher fails
    and [Run] returns its error. *)
Theorem Run_world_ignores_custom_response (f1 f2 : Fission) (r1 r2 : Request)
    (runtime : option Duration) w :
  getFunctionNameFromUrl (req_URL r1) = getFunctionNameFromUrl (req_URL r2) ->
  CreateUndefinedFunctions f1 = CreateUndefinedFunctions f2 ->
  FnFactory f1 (getFunctionNameFromUrl (req_URL r1))
    = FnFactory f2 (getFunctionNameFromUrl (req_URL r1)) ->
  (Run f1 r1 runtime w).2 = (Run f2 r2 runtime w).2.
Proof.
  intros Hn Hc Hf. rewrite !Run_eq. cbn [snd]. rewrite <- Hn.
  now rewrite (createIfUndefined_ext f1 f2 _ w Hc Hf).
Qed.

Lemma TapService_goroutines f (svcURL : string) w :
  match (TapService f svcURL w).1 with
  | None => svcURL <> EmptyString
            /\ exists fn : Function,
                 goroutines (TapService f svcURL w).2 = goroutines w ++ [fn]
  | Some _ => goroutines (TapService f svcURL w).2 = goroutines w
  end.
Proof.
  destruct svcURL as [|c s]; [reflexivity|].
  assert (Hne : String c s <> EmptyString) by discriminate.
  rewrite TapService_eq by assumption.
  destruct (Platform_Get _ (svc2fn (String c s))) as [fn|]; cbn [fst snd].
  - split; [assumption|]. exists fn. cbn [goroutines].
    now rewrite createIfUndefined_goroutines.
  - unfold record. cbn [goroutines]. apply createIfUndefined_goroutines.
Qed.

(** X9: the tap endpoint has two answers.  It answers 200 with nothing
    written exactly when a deployment was started; every failure (a body that
    cannot be read, an empty URL, a function the platform does not know) gets
    the same 400 with the text "failed to parse service to tap", and then no
    deployment is started. *)
Theorem HandleTapService_outcomes f (wr : ResponseWriter) (r : Request) w :
  status wr = None ->
  ((HandleTapService f wr r w).1 = {| status := Some 200; written := written wr |}
   /\ exists (svcURL : string) (fn : Function),
        ioutil_ReadAll (req_Body r) = Ok svcURL /\ svcURL <> EmptyString
        /\ (TapService f svcURL w).1 = None
        /\ goroutines (HandleTapService f wr r w).2 = goroutines w ++ [fn])
  \/ ((HandleTapService f wr r w).1
        = {| status := Some 400;
             written := written wr +:+ ("failed to parse service to tap" +:+ LF) |}
      /\ goroutines (HandleTapService f wr r w).2 = goroutines w
      /\ forall svcURL : string,
           ioutil_ReadAll (req_Body r) = Ok svcURL -> (TapService f svcURL w).1 <> None).
Proof.
  intros Hw. unfold HandleTapService.
  destruct (ioutil_ReadAll (req_Body r)) as [bs|e] eqn:Hb.
  - unfold mbind, M_bind. pose proof (TapService_goroutines f bs w) as Ht.
    destruct (TapService f bs w) as [[err|] w1] eqn:Et; cbn [fst snd] in *.
    + right. unfold mret, M_ret. cbn [fst snd]. rewrite http_Error_unwritten by assumption.
      split; [reflexivity|]. split; [apply Ht|].
      intros svcURL [= <-]. rewrite Et. discriminate.
    + left. destruct Ht as (Hne & fn & Hgo). unfold mret, M_ret, WriteHeader.
      rewrite Hw. cbn [fst snd]. split; [reflexivity|].
      exists bs, fn. rewrite Et. repeat split; assumption.
  - right. unfold mret, M_ret. cbn [fst snd]. rewrite http_Error_unwritten by assumption.
    split; [reflexivity|]. split; [reflexivity|]. intros svcURL [=].
Qed.

(** X10: a function the platform does not know, with auto-creation off, is
    answered differently by the three endpoints: the lookup answers 404 and
    the invocation 400, both with the text of [ErrFunctionNotFound], and the
    tap answers 400 with its fixed text. *)
Theorem not_found_status_by_endpoint f (wr : ResponseWriter) w fnName :
  CreateUndefinedFunctions f = false ->
  Platform_Get (platform w) fnName = None ->
  Run_rejects_unknown ->
  status wr = None ->
  (forall (r : Request) (bs : string),
     ioutil_ReadAll (req_Body r) = Ok bs ->
     json_Unmarshal bs = Ok {| Name := fnName |} ->
     (HandleGetServiceForFunction f wr r w).1
       = {| status := Some 404; written := written wr +:+ (ErrFunctionNotFound_text +:+ LF) |})
  /\ (forall (r : Request) (seconds : float),
        getFunctionNameFromUrl (req_URL r) = fnName ->
        parse_seconds r = Ok seconds ->
        (HandleFunctionRun f wr r w).1
          = {| status := Some 400; written := written wr +:+ (ErrFunctionNotFound_text +:+ LF) |})
  /\ (forall (r : Request) (svcURL : string),
        ioutil_ReadAll (req_Body r) = Ok svcURL ->
        svcURL <> EmptyString ->
        svc2fn svcURL = fnName ->
        (HandleTapService f wr r w).1
          = {| status := Some 400;
               written := written wr +:+ ("failed to parse service to tap" +:+ LF) |}).
Proof.
  intros Hc Hg Hrun Hw. split; [|split].
  - intros r bs Hb Hj.
    rewrite (HandleGetServiceForFunction_decoded f wr r w bs _ Hw Hb Hj).
    cbn [fst Name]. rewrite GetServiceForFunction_eq, createIfUndefined_disabled by assumption.
    cbn [fst snd]. now rewrite Hg.
  - intros r seconds <- Hs.
    assert (Hr : (Run f r (Some (seconds_to_Duration seconds)) w).1 = Err ErrFunctionNotFound).
    { rewrite Run_eq, createIfUndefined_disabled by assumption. cbn [fst snd].
      now rewrite (Hrun _ _ _ Hg). }
    unfold HandleFunctionRun. rewrite Hs. unfold mbind, M_bind.
    destruct (Run f r (Some (seconds_to_Duration seconds)) w) as [res w1].
    cbn [fst] in Hr. subst res. unfold mret, M_ret. cbn [fst].
    now rewrite http_Error_unwritten.
  - intros r svcURL Hb Hne <-. unfold HandleTapService. rewrite Hb.
    unfold mbind, M_bind. rewrite TapService_eq by assumption.
    rewrite createIfUndefined_disabled by assumption. cbn [snd]. rewrite Hg.
    unfold mret, M_ret. cbn [fst]. now rewrite http_Error_unwritten.
Qed.

(** X12: a 400 from the lookup endpoint means the platform was not touched:
    it is given only for a body that cannot be read or does not decode, before
    any lookup or registration, and the world is as it was. *)
Theorem lookup_400_leaves_world f (wr : ResponseWriter) (r : Request) w :
  status wr = None ->
  status (HandleGetServiceForFunction f wr r w).1 = Some 400 ->
  (HandleGetServiceForFunction f wr r w).2 = w
  /\ ((exists e : error,
         ioutil_ReadAll (req_Body r) = Err e
         /\ written (HandleGetServiceForFunction f wr r w).1
            = written wr +:+ ("failed to read function metadata" +:+ LF))
      \/ (exists (bs : string) (e : error),
            ioutil_ReadAll (req_Body r) = Ok bs /\ json_Unmarshal bs = Err e
            /\ written (HandleGetServiceForFunction f wr r w).1
               = written wr +:+ ("failed to parse function metadata" +:+ LF))).
Proof.
  intros Hw H400.
  destruct (ioutil_ReadAll (req_Body r)) as [bs|e] eqn:Hb.
  - destruct (json_Unmarshal bs) as [meta|e] eqn:Hj.
    + rewrite (HandleGetServiceForFunction_decoded f wr r w bs meta Hw Hb Hj) in H400.
      cbn [fst] in H400.
      destruct (GetServiceForFunction f (Name meta) w).1; discriminate.
    + unfold HandleGetServiceForFunction. rewrite Hb, Hj. unfold mret, M_ret.
      cbn [fst snd]. split; [reflexivity|]. right. exists bs, e.
      rewrite http_Error_unwritten by assumption. repeat split; assumption.
  - unfold HandleGetServiceForFunction. rewrite Hb. unfold mret, M_ret.
    cbn [fst snd]. split; [reflexivity|]. left. exists e.
    rewrite http_Error_unwritten by assumption. repeat split.
Qed.

End FissionFrame.

(** ** More of the code at work on the demo instance *)

Section MoreExamples.
Local Existing Instance Demo.platform_api.
Local Existing Instance Demo.lib.
Local Open Scope list_scope.

Lemma Demo_Define_registers : Define_registers.
Proof.
  intros p n c. cbn. rewrite lookup_insert_eq. cbn. eexists. reflexivity.
Qed.

(** X1, the theorem at work: a tap request with a query in its path is
    served by the tap handler, as the request without the query is. *)
Lemma ServeHTTP_ignores_query_witness :
  ServeHTTP (Serve (Demo.fission false)) fresh_writer
    (Demo.request "/v2/tapService?x=1" EmptyString ∅ EmptyString)
  = HandleTapService (Demo.fission false) fresh_writer
      (Demo.request "/v2/tapService?x=1" EmptyString ∅ EmptyString)
  /\ ServeHTTP (Serve (Demo.fission false)) fresh_writer
       (Demo.request "/v2/tapService" EmptyString ∅ EmptyString)
     = HandleTapService (Demo.fission false) fresh_writer
         (Demo.request "/v2/tapService" EmptyString ∅ EmptyString).
Proof.
  destruct (ServeHTTP_ignores_query (Serve (Demo.fission false)) fresh_writer
              (Demo.request "/v2/tapService?x=1" EmptyString ∅ EmptyString)
              (Demo.request "/v2/tapService" EmptyString ∅ EmptyString)
              "/v2/tapService" "x=1" eq_refl eq_refl eq_refl)
    as [(k & rt & Hk & Hm & Hl & H1 & H2)|(Hn & _)].
  - assert (Htap : routes (Serve (Demo.fission false)) !! 1%nat
                   = Some {| pattern := regexp_MustCompile "/v2/tapService";
                             handler := HandleTapService (Demo.fission false) |})
      by reflexivity.
    assert (Hk1 : k = 1%nat /\ rt = {| pattern := regexp_MustCompile "/v2/tapService";
                                       handler := HandleTapService (Demo.fission false) |}).
    { apply (last_match_unique (routes (Serve (Demo.fission false))) "/v2/tapService");
        try assumption; try reflexivity.
      intros k' rt' Hk' Hrt'.
      destruct k' as [|[|[|[|k']]]]; try lia;
        cbn in Hrt'; try discriminate; injection Hrt' as <-; reflexivity. }
    destruct Hk1 as [-> ->]. split; assumption.
  - exfalso.
    specialize (Hn 1%nat {| pattern := regexp_MustCompile "/v2/tapService";
                            handler := HandleTapService (Demo.fission false) |} eq_refl).
    vm_compute in Hn. discriminate.
Defined.

(** X4, the theorem at work: a generator registered under the key of
    [myfn] is the one run for [myfn]. *)
Lemma ExecFn_registry_witness :
  ExecFn {| GetFn := GetFn Demo.custom;
            Handlers := <["handler-myfn" := ((fun b => Ok b) : CustomFn_t)]>
                          (Handlers Demo.custom) |} "myfn" "abc"
  = Ok "abc".
Proof.
  exact (proj1 (ExecFn_registry Demo.custom "myfn" "handler-myfn" "handler-failing"
                  (fun b => Ok b) "abc" eq_refl ltac:(discriminate))).
Defined.

(** X8, the theorem at work: a run of [myfn] with the marker header and a
    body, and one without the header and with a dispatcher that always
    fails, leave the same world. *)
Lemma Run_world_ignores_custom_response_witness :
  (Run (Demo.fission false)
     (Demo.request "/fission-function/myfn" EmptyString Demo.marker "payload") None
     (Demo.world Demo.with_myfn)).2
  = (Run {| FnFactory := Demo.factory; CreateUndefinedFunctions := false;
            CustomFn := {| GetFn := fun _ => Err (errors_New "no key"); Handlers := ∅ |} |}
       (Demo.request "/fission-function/myfn" EmptyString ∅ EmptyString) None
       (Demo.world Demo.with_myfn)).2.
Proof.
  apply Run_world_ignores_custom_response; reflexivity.
Defined.

(** X9, the theorem at work: the tap of [myfn] is answered 200 with one
    goroutine started. *)
Lemma HandleTapService_outcomes_witness :
  (HandleTapService (Demo.fission false) fresh_writer
     (Demo.request "/v2/tapService" EmptyString ∅ "http://myfn/")
     (Demo.world Demo.with_myfn)).1 = {| status := Some 200; written := EmptyString |}
  /\ goroutines (HandleTapService (Demo.fission false) fresh_writer
                   (Demo.request "/v2/tapService" EmptyString ∅ "http://myfn/")
                   (Demo.world Demo.with_myfn)).2
     = [{| Demo.name := "myfn"; Demo.config := 3 * Second |}].
Proof.
  destruct (HandleTapService_outcomes (Demo.fission false) fresh_writer
              (Demo.request "/v2/tapService" EmptyString ∅ "http://myfn/")
              (Demo.world Demo.with_myfn) eq_refl) as [[Hresp _]|[Hresp _]].
  - split; [exact Hresp | reflexivity].
  - vm_compute in Hresp. discriminate.
Defined.

(** X10, the theorem at work: the unknown [ghost] at the lookup and at the
    invocation endpoint. *)
Lemma not_found_status_by_endpoint_witness :
  (HandleGetServiceForFunction (Demo.fission false) fresh_writer
     (Demo.request "/v2/getServiceForFunction" EmptyString ∅
        ("{" +:+ Demo.quote +:+ "name" +:+ Demo.quote +:+ ":" +:+ Demo.quote +:+ "ghost"
         +:+ Demo.quote +:+ "}"))
     (Demo.world Demo.with_myfn)).1
  = {| status := Some 404; written := "function does not exist" +:+ LF |}
  /\ (HandleFunctionRun (Demo.fission false) fresh_writer
        (Demo.request "/fission-function/ghost" EmptyString ∅ EmptyString)
        (Demo.world Demo.with_myfn)).1
     = {| status := Some 400; written := "function does not exist" +:+ LF |}.
Proof.
  destruct (not_found_status_by_endpoint (Demo.fission false) fresh_writer
              (Demo.world Demo.with_myfn) "ghost" eq_refl eq_refl
              Demo_Run_rejects_unknown eq_refl) as (Hget & Hrun & _).
  split.
  - apply (Hget _ ("{" +:+ Demo.quote +:+ "name" +:+ Demo.quote +:+ ":" +:+ Demo.quote
                   +:+ "ghost" +:+ Demo.quote +:+ "}")); vm_compute; reflexivity.
  - apply (Hrun _ 0%float); vm_compute; reflexivity.
Defined.

(** X11, the lemma at work: two lookups of [myfn] in a row on the empty
    demo platform. *)
Lemma second_call_registers_nothing_witness :
  calls (GetServiceForFunction (Demo.fission true) "myfn"
           (GetServiceForFunction (Demo.fission true) "myfn"
              (Demo.world Demo.no_functions)).2).2
  = [Get_call "myfn"; FnFactory_call "myfn"; Define_call "myfn" (2 * Second);
     Get_call "myfn"; Get_call "myfn"; Get_call "myfn"].
Proof.
  exact (second_call_registers_nothing (Demo.fission true) (Demo.world Demo.no_functions)
           "myfn" eq_refl eq_refl Demo_Define_registers).
Defined.

(** X12, the theorem at work: a body that ends early is answered 400 and
    the world with [myfn] is as before. *)
Lemma lookup_400_leaves_world_witness :
  (HandleGetServiceForFunction (Demo.fission true) fresh_writer
     (Demo.request "/v2/getServiceForFunction" EmptyString ∅ "{")
     (Demo.world Demo.with_myfn)).2 = Demo.world Demo.with_myfn.
Proof.
  assert (H400 : status (HandleGetServiceForFunction (Demo.fission true) fresh_writer
                           (Demo.request "/v2/getServiceForFunction" EmptyString ∅ "{")
                           (Demo.world Demo.with_myfn)).1 = Some 400)
    by (vm_compute; reflexivity).
  exact (proj1 (lookup_400_leaves_world (Demo.fission true) fresh_writer
                  (Demo.request "/v2/getServiceForFunction" EmptyString ∅ "{")
                  (Demo.world Demo.with_myfn) eq_refl H400)).
Defined.

End MoreExamples.

(** ** Auto-creation on a platform that finds what it defines *)

Section AutoCreation.
Context `{PlatformAPI} `{GoLib}.
Implicit Types (f : Fission) (w : World) (fnName : string).
Local Open Scope list_scope.

(** After the policy, the function is there. *)
Lemma createIfUndefined_ensures f fnName w :
  CreateUndefinedFunctions f = true ->
  Define_registers ->
  is_Some (Platform_Get (platform (createIfUndefined f fnName w).2) fnName).
Proof.
  intros Hc Hdef. destruct (Platform_Get (platform w) fnName) as [fn|] eqn:Hg.
  - rewrite (createIfUndefined_known _ _ _ fn) by assumption.
    cbn [snd record platform]. rewrite Hg. now exists fn.
  - rewrite createIfUndefined_unknown by assumption. cbn [snd platform]. apply Hdef.
Qed.

(** X13: with auto-creation on, on a platform that finds what it defines,
    no name is ever not found: the lookup of any name gives a service, the
    tap of any URL that is not empty returns [nil] and starts a deployment,
    and the tap endpoint answers 200 to any body that is not empty. *)
Theorem auto_creation_finds_every_name f w :
  CreateUndefinedFunctions f = true ->
  Define_registers ->
  (forall fnName, exists svc : string, (GetServiceForFunction f fnName w).1 = Ok svc)
  /\ (forall svcURL : string,
        svcURL <> EmptyString ->
        (TapService f svcURL w).1 = None
        /\ exists fn : Function,
             goroutines (TapService f svcURL w).2 = goroutines w ++ [fn])
  /\ (forall (wr : ResponseWriter) (r : Request) (svcURL : string),
        status wr = None ->
        ioutil_ReadAll (req_Body r) = Ok svcURL ->
        svcURL <> EmptyString ->
        (HandleTapService f wr r w).1 = {| status := Some 200; written := written wr |}).
Proof.
  intros Hc Hdef.
  assert (Htap : forall svcURL : string,
            svcURL <> EmptyString ->
            (TapService f svcURL w).1 = None
            /\ exists fn : Function,
                 goroutines (TapService f svcURL w).2 = goroutines w ++ [fn]).
  { intros svcURL Hne. rewrite TapService_eq by assumption.
    destruct (createIfUndefined_ensures f (svc2fn svcURL) w Hc Hdef) as [fn Hfn].
    rewrite Hfn. cbn [fst snd goroutines]. split; [reflexivity|].
    exists fn. now rewrite createIfUndefined_goroutines. }
  split; [|split; [exact Htap|]].
  - intros fnName. rewrite GetServiceForFunction_eq. cbn [fst].
    destruct (createIfUndefined_ensures f fnName w Hc Hdef) as [fn Hfn].
    rewrite Hfn. now exists (Function_name fn).
  - intros wr r svcURL Hw Hb Hne. unfold HandleTapService. rewrite Hb.
    unfold mbind, M_bind. destruct (Htap svcURL Hne) as [Hnil _].
    destruct (TapService f svcURL w) as [res w1]. cbn [fst] in Hnil. subst res.
    unfold mret, M_ret, WriteHeader. now rewrite Hw.
Qed.

Lemma append_slash_assoc (a b c : string) (x : ascii) :
  (a +:+ String "/"%char b) +:+ String x c = a +:+ String "/"%char (b +:+ String x c).
Proof.
  induction a as [|d a IH].
  - reflexivity.
  - change (String d a +:+ String "/"%char b) with (String d (a +:+ String "/"%char b)).
    change (String d (a +:+ String "/"%char b) +:+ String x c)
      with (String d ((a +:+ String "/"%char b) +:+ String x c)).
    change (String d a +:+ String "/"%char (b +:+ String x c))
      with (String d (a +:+ String "/"%char (b +:+ String x c))).
    now rewrite IH.
Qed.

(** X14: the router cuts the path at its first [?] and the function name is
    cut from the whole path: for a path [a/b?q], [ServeHTTP] invokes the
    handler of the last registered binding whose pattern matches [a/b] (or
    answers not found when none does), so the text from the [?] on takes no
    part in routing, and the name of the function is [b?q]. *)
Theorem name_keeps_what_routing_drops {S : Type} (h : RegexpHandler S)
    (w : ResponseWriter) (r : Request) (a b q : string) :
  Path (req_URL r) = a +:+ String "/"%char (b +:+ String "?"%char q) ->
  strings.Contains a "?"%char = false ->
  strings.Contains b "?"%char = false ->
  strings.Contains b "/"%char = false ->
  strings.Contains q "/"%char = false ->
  ((exists k rt,
       routes h !! k = Some rt
       /\ regexp_MatchString (pattern rt) (a +:+ String "/"%char b) = true
       /\ (forall k' rt', (k < k')%nat -> routes h !! k' = Some rt' ->
             regexp_MatchString (pattern rt') (a +:+ String "/"%char b) = false)
       /\ ServeHTTP h w r = handler rt w r)
   \/ ((forall k rt, routes h !! k = Some rt ->
          regexp_MatchString (pattern rt) (a +:+ String "/"%char b) = false)
       /\ ServeHTTP h w r = mret (http_NotFound w r)))
  /\ getFunctionNameFromUrl (req_URL r) = b +:+ String "?"%char q.
Proof.
  intros Hp Ha Hb Hb' Hq. split.
  - assert (E : route_path r = a +:+ String "/"%char b).
    { unfold route_path. rewrite Hp, <- append_slash_assoc.
      rewrite Split_at_first; [reflexivity|].
      rewrite Contains_app. cbn [strings.Contains]. rewrite Ha, Hb. reflexivity. }
    destruct (ServeHTTP_cases h w r) as [(k & rt & Hk & Hm & Hl & _ & Hs)|(Hn & _ & Hs)];
      rewrite E in *.
    + left. exists k, rt. repeat split; assumption.
    + right. split; assumption.
  - destruct (req_URL r) as [path rq host]. cbn [Path] in Hp. subst path.
    apply getFunctionNameFromUrl_after_slash.
    rewrite Contains_app. cbn [strings.Contains]. rewrite Hb', Hq. reflexivity.
Qed.

(** X15: [Run] reads the headers for one thing only, whether the marker is
    set: two requests with the same URL and body whose headers agree on that
    give the same result and the same world, whatever else the headers hold
    and whatever the value of the marker. *)
Theorem Run_reads_only_the_marker f (r1 r2 : Request) (runtime : option Duration) w :
  req_URL r1 = req_URL r2 ->
  req_Body r1 = req_Body r2 ->
  useCustomFn (req_Header r1) = useCustomFn (req_Header r2) ->
  Run f r1 runtime w = Run f r2 runtime w.
Proof.
  intros Hu Hb Hh. rewrite !Run_eq. now rewrite Hu, Hb, Hh.
Qed.

End AutoCreation.

Section AutoCreationExamples.
Local Existing Instance Demo.platform_api.
Local Existing Instance Demo.lib.
Local Open Scope list_scope.

(** X13, the theorem at work: the tap of a name the demo platform has never
    seen returns [nil]. *)
Lemma auto_creation_finds_every_name_witness :
  (TapService (Demo.fission true) "http://foo.bar/baz" (Demo.world Demo.no_functions)).1 = None.
Proof.
  destruct (auto_creation_finds_every_name (Demo.fission true) (Demo.world Demo.no_functions)
              eq_refl Demo_Define_registers) as (_ & Htap & _).
  exact (proj1 (Htap "http://foo.bar/baz" ltac:(discriminate))).
Defined.

(** X14, the theorem at work: on the routes of [Serve], a request path
    [/fission-function/myfn?v=1] is served, and names the function
    [myfn?v=1]. *)
Lemma name_keeps_what_routing_drops_witness :
  (exists rt : route World,
     regexp_MatchString (pattern rt) "/fission-function/myfn" = true
     /\ ServeHTTP (Serve (Demo.fission false)) fresh_writer
          (Demo.request "/fission-function/myfn?v=1" EmptyString ∅ EmptyString)
        = handler rt fresh_writer
            (Demo.request "/fission-function/myfn?v=1" EmptyString ∅ EmptyString))
  /\ getFunctionNameFromUrl
       (req_URL (Demo.request "/fission-function/myfn?v=1" EmptyString ∅ EmptyString))
     = "myfn?v=1".
Proof.
  destruct (name_keeps_what_routing_drops (Serve (Demo.fission false)) fresh_writer
              (Demo.request "/fission-function/myfn?v=1" EmptyString ∅ EmptyString)
              "/fission-function" "myfn" "v=1" eq_refl eq_refl eq_refl eq_refl eq_refl)
    as [[(k & rt & _ & Hm & _ & Hs)|(Hn & _)] Hname].
  - split; [|exact Hname]. exists rt. split; assumption.
  - exfalso.
    specialize (Hn 3%nat {| pattern := regexp_MustCompile "/fission-function/.*";
                            handler := HandleFunctionRun (Demo.fission false) |} eq_refl).
    vm_compute in Hn. discriminate.
Defined.

(** X15, the theorem at work: two values of the marker, with another header
    beside one of them. *)
Lemma Run_reads_only_the_marker_witness :
  Run (Demo.fission false)
    (Demo.request "/fission-function/myfn" EmptyString Demo.marker "payload") None
    (Demo.world Demo.with_myfn)
  = Run (Demo.fission false)
      (Demo.request "/fission-function/myfn" EmptyString
         {[ "X-Customfn" := ["yes"; "no"]; "Accept" := ["*/*"] ]} "payload") None
      (Demo.world Demo.with_myfn).
Proof.
  apply Run_reads_only_the_marker; [reflexivity | reflexivity |].
  vm_compute. reflexivity.
Defined.

End AutoCreationExamples.
